(** * CDI rate collector: sampling, append-only CSV store, batch loop, reader

    A shallow embedding of [analise.py], [extracao.py] and [visualizacao.py].
    Python code that prints, touches the file system, reads the clock or
    talks to the network is written in a state-and-exception monad over an
    explicit [world]; what the outside answers (HTTP outcomes, disk faults,
    clock readings, random draws) comes from an [env] of oracles indexed by
    call number.  Floats are modelled as exact rationals. *)

From Stdlib Require Import String Ascii List ZArith QArith Qround Lia DecimalString.
From stdpp Require Import gmap strings list.

Set Warnings "-register-all".
Local Open Scope string_scope.

(** ** Python runtime *)
Module Py.

(** Exception classes that the modelled calls can raise. *)
Inductive exn_class :=
  (* requests.exceptions *)
  | Timeout | ConnectionError | HTTPError | RequestsJSONDecodeError
  (* json *)
  | JSONDecodeError
  (* builtins *)
  | ValueError | KeyError | IndexError | TypeError
  | OSError | PermissionError | FileNotFoundError | IsADirectoryError
  (* pandas.errors *)
  | EmptyDataError | ParserError.

(** An exception object: its class and [str(e)]. *)
Record exn := Exn { exn_cls : exn_class; exn_str : string }.

(** [isinstance(e, requests.exceptions.RequestException)].  Since requests
    2.27 [Response.json()] raises [requests.exceptions.JSONDecodeError], which
    derives from [InvalidJSONError] (a [RequestException]) and from
    [json.JSONDecodeError]. *)
Definition is_RequestException (e : exn) : bool :=
  match exn_cls e with
  | Timeout | ConnectionError | HTTPError | RequestsJSONDecodeError => true
  | _ => false
  end.

Definition is_JSONDecodeError (e : exn) : bool :=
  match exn_cls e with
  | JSONDecodeError | RequestsJSONDecodeError => true
  | _ => false
  end.

Definition is_KeyError (e : exn) : bool :=
  match exn_cls e with KeyError => true | _ => false end.

Definition is_ValueError (e : exn) : bool :=
  match exn_cls e with
  | ValueError | JSONDecodeError | RequestsJSONDecodeError
  | EmptyDataError | ParserError => true
  | _ => false
  end.

(** [IOError] is an alias of [OSError]; [RequestException] derives from it. *)
Definition is_IOError (e : exn) : bool :=
  match exn_cls e with
  | OSError | PermissionError | FileNotFoundError | IsADirectoryError
  | Timeout | ConnectionError | HTTPError | RequestsJSONDecodeError => true
  | _ => false
  end.

(** Every class above derives from [Exception]. *)
Definition is_Exception (e : exn) : bool := true.

Inductive result (A : Type) :=
  | Ret (a : A)
  | Raise (e : exn).
Arguments Ret {A} a.
Arguments Raise {A} e.

(** *** Values decoded from JSON *)
Inductive json :=
  | JNull
  | JBool (b : bool)
  | JNum (q : Q)
  | JStr (s : string)
  | JArr (items : list json)
  | JObj (members : list (string * json)).

(** *** What the outside world answers *)

(** Failures of [requests.get] itself. *)
Inductive net_error := NetTimeout | NetConnection.

(** Outcome of one [requests.get(url, timeout=10)]: either the call fails, or
    a response arrives with a status code and a body; [None] is a body
    that is not JSON text. *)
Inductive http_outcome :=
  | GetFails (err : net_error)
  | Response (status : nat) (body : option json).

(** [errno] of a failed [open] or of a failed flush on close. *)
Inductive os_error := EACCES | ENOSPC | ENOENT | EISDIR | ENAMETOOLONG | EIO.

(** What the disk does during one [with open(arquivo, 'a')] block: nothing
    wrong, [open] fails, or the buffered text fails to reach the file after
    [written] bytes of it did. *)
Inductive io_fault :=
  | IoOk
  | IoOpenFails (err : os_error)
  | IoFlushFails (written : nat) (err : os_error).

Record datetime := DateTime {
  year : nat; month : nat; day : nat;
  hour : nat; minute : nat; second : nat
}.

Class env := Env {
  net : nat -> http_outcome;   (* answer to the n-th requests.get *)
  disk : nat -> io_fault;      (* fate of the n-th open(..., 'a') *)
  clock : nat -> datetime;     (* n-th datetime.now() *)
  dice : nat -> N              (* 53 random bits behind the n-th random() *)
}.

Record world := World {
  fs : gmap string string;     (* path |-> file content *)
  stdout : list string;        (* lines printed so far *)
  sleeps : list Z;             (* completed time.sleep calls, in order *)
  charts : list string;        (* image files written by savefig *)
  n_get : nat;
  n_open : nat;
  n_now : nat;
  n_rand : nat;
  n_read : nat                 (* files parsed by read_csv so far *)
}.

Record DataFrame := Frame {
  columns : list string;
  records : list (list string)
}.

(** Library functions whose text is not part of the repository:
    [float(str)], [str(float)] and [pandas.read_csv] on a file's content. *)
Class Runtime := {
  float_of_str : string -> option Q;
  str_of_float : Q -> string;
  read_csv : string -> result DataFrame
}.

Definition M (A : Type) : Type := world -> result A * world.

Definition ret {A} (a : A) : M A := fun w => (Ret a, w).
Definition raise {A} (e : exn) : M A := fun w => (Raise e, w).
Definition bind {A B} (c : M A) (k : A -> M B) : M B :=
  fun w => match c w with
           | (Ret a, w') => k a w'
           | (Raise e, w') => (Raise e, w')
           end.

(** [try: body except ...: handler]: [handler e] is [None] when no
    [except] clause matches [e]. *)
Definition try_except {A} (body : M A) (handler : exn -> option (M A)) : M A :=
  fun w => match body w with
           | (Ret a, w') => (Ret a, w')
           | (Raise e, w') =>
               match handler e with
               | Some h => h w'
               | None => (Raise e, w')
               end
           end.

Definition set_fs (f : gmap string string) (w : world) : world :=
  World f (stdout w) (sleeps w) (charts w) (n_get w) (n_open w) (n_now w) (n_rand w) (n_read w).

Definition print (line : string) : M unit :=
  fun w => (Ret tt,
            World (fs w) (stdout w ++ [line]) (sleeps w) (charts w)
                  (n_get w) (n_open w) (n_now w) (n_rand w) (n_read w)).

(** [str(n)] for a non-negative int. *)
Definition str_nat (n : nat) : string := NilZero.string_of_uint (Nat.to_uint n).

Definition str_Z (z : Z) : string :=
  match z with
  | Zneg p => "-" +:+ str_nat (Pos.to_nat p)
  | _ => str_nat (Z.to_nat z)
  end.

Section Operations.
Context {rt : Runtime} {E : env}.

(** *** File system *)

(** [os.path.exists(path)] *)
Definition path_exists (path : string) : M bool :=
  fun w => (Ret (bool_decide (is_Some (fs w !! path))), w).

Definition os_exn (err : os_error) (path : string) : exn :=
  match err with
  | EACCES => Exn PermissionError ("[Errno 13] Permission denied: '" +:+ path +:+ "'")
  | ENOSPC => Exn OSError "[Errno 28] No space left on device"
  | ENOENT => Exn FileNotFoundError ("[Errno 2] No such file or directory: '" +:+ path +:+ "'")
  | EISDIR => Exn IsADirectoryError ("[Errno 21] Is a directory: '" +:+ path +:+ "'")
  | ENAMETOOLONG => Exn OSError ("[Errno 36] File name too long: '" +:+ path +:+ "'")
  | EIO => Exn OSError "[Errno 5] Input/output error"
  end.

Definition content (f : gmap string string) (path : string) : string :=
  default "" (f !! path).

(** [with open(path, 'a', newline='', encoding='utf-8') as f:] around a block
    that writes [text] to [f].  Append mode creates an absent file and puts
    every byte after the existing ones; the text is buffered and reaches
    the file when the block closes it. *)
Definition with_open_append (path : string) (text : string) : M unit :=
  fun w =>
    let w1 := World (fs w) (stdout w) (sleeps w) (charts w)
                    (n_get w) (S (n_open w)) (n_now w) (n_rand w) (n_read w) in
    match disk (n_open w) with
    | IoOk =>
        (Ret tt, set_fs (<[path := content (fs w) path +:+ text]> (fs w)) w1)
    | IoOpenFails err =>
        (Raise (os_exn err path), w1)
    | IoFlushFails written err =>
        (Raise (os_exn err path),
         set_fs (<[path := content (fs w) path +:+ substring 0 written text]> (fs w)) w1)
    end.

(** *** csv.DictWriter with the default (excel) dialect *)
Definition dquote : ascii := ascii_of_nat 34.
Definition CR : ascii := ascii_of_nat 13.
Definition LF : ascii := ascii_of_nat 10.
Definition comma : ascii := ascii_of_nat 44.
Definition lineterminator : string := String CR (String LF "").

Fixpoint needs_quoting (s : string) : bool :=
  match s with
  | "" => false
  | String c r =>
      Ascii.eqb c comma || Ascii.eqb c dquote || Ascii.eqb c CR || Ascii.eqb c LF
      || needs_quoting r
  end.

Fixpoint double_quotes (s : string) : string :=
  match s with
  | "" => ""
  | String c r =>
      if Ascii.eqb c dquote then String c (String c (double_quotes r))
      else String c (double_quotes r)
  end.

(** QUOTE_MINIMAL *)
Definition csv_field (s : string) : string :=
  if needs_quoting s
  then String dquote (double_quotes s) +:+ String dquote ""
  else s.

Definition csv_line (fields : list string) : string :=
  String.concat (String comma "") (map csv_field fields) +:+ lineterminator.

(** [writer.writeheader()] and [writer.writerow(row)] of a [DictWriter]:
    one line with the field names, one line with the row's values in the
    order of the field names. *)
Definition writeheader (fieldnames : list string) : string := csv_line fieldnames.
Definition writerow (values : list string) : string := csv_line values.

(** *** requests *)
Definition response : Type := nat * option json.

Definition net_exn (err : net_error) : exn :=
  match err with
  | NetTimeout => Exn Timeout "Read timed out. (read timeout=10)"
  | NetConnection => Exn ConnectionError "Max retries exceeded with url"
  end.

Definition requests_get : M response :=
  fun w =>
    let w1 := World (fs w) (stdout w) (sleeps w) (charts w)
                    (S (n_get w)) (n_open w) (n_now w) (n_rand w) (n_read w) in
    match net (n_get w) with
    | GetFails err => (Raise (net_exn err), w1)
    | Response status body => (Ret (status, body), w1)
    end.

(** [response.raise_for_status()]: [HTTPError] on a 4xx or 5xx status
    (the messages of the exceptions of [requests] are abridged). *)
Definition raise_for_status (r : response) : M unit :=
  if (400 <=? fst r)%nat && (fst r <? 600)%nat
  then raise (Exn HTTPError (str_nat (fst r) +:+ " Error"))
  else ret tt.

(** [response.json()]: on a body that is not JSON it raises
    [requests.exceptions.JSONDecodeError] (see [is_RequestException]). *)
Definition response_json (r : response) : M json :=
  match snd r with
  | Some v => ret v
  | None => raise (Exn RequestsJSONDecodeError "Expecting value: line 1 column 1 (char 0)")
  end.

(** *** Built-in operations on decoded JSON *)
Definition truthy (v : json) : bool :=
  match v with
  | JNull => false
  | JBool b => b
  | JNum q => negb (Qeq_bool q 0)
  | JStr s => negb (String.eqb s "")
  | JArr items => match items with [] => false | _ => true end
  | JObj members => match members with [] => false | _ => true end
  end.

Definition len (v : json) : M nat :=
  match v with
  | JStr s => ret (String.length s)
  | JArr items => ret (length items)
  | JObj members => ret (length members)
  | _ => raise (Exn TypeError "object has no len()")
  end.

Fixpoint last_char (s : string) : option ascii :=
  match s with
  | "" => None
  | String c "" => Some c
  | String _ r => last_char r
  end.

(** [v[-1]] *)
Definition getitem_last (v : json) : M json :=
  match v with
  | JArr items =>
      match last items with
      | Some x => ret x
      | None => raise (Exn IndexError "list index out of range")
      end
  | JStr s =>
      match last_char s with
      | Some c => ret (JStr (String c ""))
      | None => raise (Exn IndexError "string index out of range")
      end
  | JObj _ => raise (Exn KeyError "-1")
  | _ => raise (Exn TypeError "object is not subscriptable")
  end.

Fixpoint assoc (key : string) (members : list (string * json)) : option json :=
  match members with
  | [] => None
  | (k, v) :: rest => if String.eqb k key then Some v else assoc key rest
  end.

(** [v[key]] for a string key *)
Definition getitem (v : json) (key : string) : M json :=
  match v with
  | JObj members =>
      match assoc key members with
      | Some x => ret x
      | None => raise (Exn KeyError ("'" +:+ key +:+ "'"))
      end
  | JArr _ => raise (Exn TypeError "list indices must be integers or slices, not str")
  | JStr _ => raise (Exn TypeError "string indices must be integers, not 'str'")
  | _ => raise (Exn TypeError "object is not subscriptable")
  end.

(** [float(v)] *)
Definition float (v : json) : M Q :=
  match v with
  | JNum q => ret q
  | JBool b => ret (if b then 1 else 0)%Q
  | JStr s =>
      match float_of_str s with
      | Some q => ret q
      | None => raise (Exn ValueError ("could not convert string to float: '" +:+ s +:+ "'"))
      end
  | _ => raise (Exn TypeError "float() argument must be a string or a real number")
  end.

(** *** datetime *)
Definition datetime_now : M datetime :=
  fun w => (Ret (clock (n_now w)),
            World (fs w) (stdout w) (sleeps w) (charts w)
                  (n_get w) (n_open w) (S (n_now w)) (n_rand w) (n_read w)).

Definition digit (n : nat) : string := String (ascii_of_nat (48 + n mod 10)) "".
Definition pad2 (n : nat) : string := digit (n / 10) +:+ digit n.
Definition pad4 (n : nat) : string := digit (n / 1000) +:+ digit (n / 100) +:+ pad2 n.

(** [agora.strftime('%Y-%m-%d')] *)
Definition strftime_Ymd (t : datetime) : string :=
  pad4 (year t) +:+ "-" +:+ pad2 (month t) +:+ "-" +:+ pad2 (day t).

(** [agora.strftime('%H:%M:%S')] *)
Definition strftime_HMS (t : datetime) : string :=
  pad2 (hour t) +:+ ":" +:+ pad2 (minute t) +:+ ":" +:+ pad2 (second t).

(** *** random and round *)

(** [random.random()]: a 53-bit integer scaled into [0, 1). *)
Definition random_random : M Q :=
  fun w => (Ret (Z.of_N (dice (n_rand w) mod 2 ^ 53) # 2 ^ 53),
            World (fs w) (stdout w) (sleeps w) (charts w)
                  (n_get w) (n_open w) (n_now w) (S (n_rand w)) (n_read w)).

(** [random.uniform(a, b)] is [a + (b - a) * self.random()]. *)
Definition random_uniform (a b : Q) : M Q :=
  bind random_random (fun r => ret (a + (b - a) * r)%Q).

(** Nearest integer, ties to even. *)
Definition round_half_even (x : Q) : Z :=
  let f := Qfloor x in
  match (x - inject_Z f ?= 1 # 2)%Q with
  | Lt => f
  | Gt => (f + 1)%Z
  | Eq => if Z.even f then f else (f + 1)%Z
  end.

(** [round(x, ndigits)] *)
Definition round (x : Q) (ndigits : nat) : Q :=
  (inject_Z (round_half_even (x * inject_Z (10 ^ Z.of_nat ndigits)))
   / inject_Z (10 ^ Z.of_nat ndigits))%Q.

(** *** time and matplotlib *)
Definition time_sleep (secs : Z) : M unit :=
  fun w =>
    if (secs <? 0)%Z
    then (Raise (Exn ValueError "sleep length must be non-negative"), w)
    else (Ret tt,
          World (fs w) (stdout w) (sleeps w ++ [secs]) (charts w)
                (n_get w) (n_open w) (n_now w) (n_rand w) (n_read w)).

Definition savefig (name : string) : M unit :=
  fun w => (Ret tt,
            World (fs w) (stdout w) (sleeps w) (charts w ++ [name])
                  (n_get w) (n_open w) (n_now w) (n_rand w) (n_read w)).

(** *** pandas *)

(** [pd.read_csv(path)] on an existing file *)
Definition pd_read_csv (path : string) : M DataFrame :=
  fun w => (read_csv (content (fs w) path),
            World (fs w) (stdout w) (sleeps w) (charts w)
                  (n_get w) (n_open w) (n_now w) (n_rand w) (S (n_read w))).

(** [name in df.columns] *)
Definition in_columns (name : string) (df : DataFrame) : bool :=
  existsb (String.eqb name) (columns df).

Fixpoint position (name : string) (cols : list string) : nat :=
  match cols with
  | [] => 0
  | c :: rest => if String.eqb name c then 0 else S (position name rest)
  end.

(** [df[name]]: the column as a list of cells *)
Definition df_getitem (df : DataFrame) (name : string) : M (list string) :=
  if in_columns name df
  then ret (map (fun r => nth (position name (columns df)) r "") (records df))
  else raise (Exn KeyError ("'" +:+ name +:+ "'")).

(** *** control flow *)
Fixpoint for_each {A} (xs : list A) (body : A -> M unit) : M unit :=
  match xs with
  | [] => ret tt
  | x :: rest => bind (body x) (fun _ => for_each rest body)
  end.

(** [range(n)] *)
Definition range (n : Z) : list nat := seq 0 (Z.to_nat n).

End Operations.

End Py.

Notation "x <- c ;; k" := (Py.bind c (fun x => k))
  (at level 90, c at level 80, right associativity, only parsing).
Notation "c ;;; k" := (Py.bind c (fun _ => k))
  (at level 90, right associativity, only parsing).

(** ** analise.py *)
Module Analise.
Import Py.

Section Code.
Context {rt : Runtime} {E : env}.

Definition extrair_taxa_cdi : M (string * string * Q) :=
  try_except
    (response <- requests_get ;;
     raise_for_status response ;;;
     dados <- response_json response ;;
     tem_dados <- (if truthy dados
                   then n <- len dados ;; ret (0 <? n)%nat
                   else ret false) ;;
     if tem_dados then
       ultimo_registro <- getitem_last dados ;;
       valor <- getitem ultimo_registro "valor" ;;
       taxa <- float valor ;;
       agora <- datetime_now ;;
       ret (strftime_Ymd agora, strftime_HMS agora, taxa)
     else
       raise (Exn ValueError "Nenhum dado CDI encontrado na API"))
    (fun e =>
       if is_RequestException e then Some (
         print "Aviso: Não foi possível conectar à API da B3. Usando dados simulados." ;;;
         u <- random_uniform 12.5 13.8 ;;
         let taxa := round u 4 in
         agora <- datetime_now ;;
         ret (strftime_Ymd agora, strftime_HMS agora, taxa))
       else if is_JSONDecodeError e || is_KeyError e || is_ValueError e then Some (
         print ("Erro ao processar dados: " +:+ exn_str e) ;;;
         raise e)
       else None).

Definition campos : list string := ["data"; "hora"; "taxa"].

Definition salvar_csv (data hora : string) (taxa : Q) (arquivo : string) : M unit :=
  arquivo_existe <- path_exists arquivo ;;
  try_except
    (with_open_append arquivo
       ((if negb arquivo_existe then writeheader campos else "")
        +:+ writerow [data; hora; str_of_float taxa]) ;;;
     print ("Dados salvos: Data=" +:+ data +:+ ", Hora=" +:+ hora
            +:+ ", Taxa=" +:+ str_of_float taxa +:+ "%"))
    (fun e =>
       if is_IOError e then Some (
         print ("Erro ao salvar arquivo CSV: " +:+ exn_str e) ;;;
         raise e)
       else None).

Definition arquivo_padrao : string := "taxa-cdi.csv".

Definition ler_dados_csv (arquivo : string) : M DataFrame :=
  try_except
    (existe <- path_exists arquivo ;;
     if negb existe then
       raise (Exn FileNotFoundError ("Arquivo " +:+ arquivo +:+ " não encontrado"))
     else
       df <- pd_read_csv arquivo ;;
       if negb (in_columns "hora" df) || negb (in_columns "taxa" df) then
         raise (Exn ValueError "Arquivo CSV deve conter as colunas 'hora' e 'taxa'")
       else ret df)
    (fun e =>
       if is_Exception e then Some (
         print ("Erro ao ler arquivo CSV: " +:+ exn_str e) ;;;
         raise e)
       else None).

(** Styling and drawing calls only change the figure in memory; the file
    appears at [plt.savefig]. *)
Definition gerar_grafico (df : DataFrame) (nome_grafico : string) : M unit :=
  try_except
    (horas <- df_getitem df "hora" ;;
     taxas <- df_getitem df "taxa" ;;
     let nome_arquivo := nome_grafico +:+ ".png" in
     savefig nome_arquivo ;;;
     print ("Gráfico salvo como: " +:+ nome_arquivo))
    (fun e =>
       if is_Exception e then Some (
         print ("Erro ao gerar gráfico: " +:+ exn_str e) ;;;
         raise e)
       else None).

(** Body of the [for i in range(n_coletas)] loop. *)
Definition coleta (n_coletas intervalo : Z) (i : nat) : M unit :=
  try_except
    (amostra <- extrair_taxa_cdi ;;
     let '(data, hora, taxa) := amostra in
     salvar_csv data hora taxa arquivo_padrao ;;;
     print ("Coleta " +:+ str_nat (i + 1) +:+ "/" +:+ str_Z n_coletas +:+ " concluída") ;;;
     if (Z.of_nat i <? n_coletas - 1)%Z then time_sleep intervalo else ret tt)
    (fun e =>
       if is_Exception e then Some (
         print ("Erro na coleta " +:+ str_nat (i + 1) +:+ ": " +:+ exn_str e))
       else None).

Definition coletar_multiplas_vezes (n_coletas intervalo : Z) : M unit :=
  print ("Realizando " +:+ str_Z n_coletas +:+ " coletas com intervalo de "
         +:+ str_Z intervalo +:+ "s...") ;;;
  for_each (range n_coletas) (coleta n_coletas intervalo).

(** [print("=" * 60)] and [print("-" * 60)] *)
Definition regua (c : ascii) : string := string_of_list_ascii (repeat c 60).

Definition main : M Z :=
  print (regua "=") ;;;
  print "ANÁLISE DE TAXA CDI - B3" ;;;
  print (regua "=") ;;;
  print "" ;;;
  try_except
    (print "1. EXTRAÇÃO DE DADOS" ;;;
     print (regua "-") ;;;
     coletar_multiplas_vezes 10 2 ;;;
     print "" ;;;
     print "2. GERAÇÃO DE VISUALIZAÇÃO" ;;;
     print (regua "-") ;;;
     df <- ler_dados_csv arquivo_padrao ;;
     print ("Total de registros lidos: " +:+ str_nat (length (records df))) ;;;
     gerar_grafico df "analise-cdi" ;;;
     print "" ;;;
     print (regua "=") ;;;
     print "ANÁLISE CONCLUÍDA COM SUCESSO!" ;;;
     print (regua "=") ;;;
     print "- Arquivo de dados: taxa-cdi.csv" ;;;
     print "- Gráfico gerado: analise-cdi.png" ;;;
     ret 0%Z)
    (fun e =>
       if is_Exception e then Some (
         print ("Erro durante a execução: " +:+ exn_str e) ;;;
         ret 1%Z)
       else None).

End Code.
End Analise.

(** ** extracao.py *)
Module Extracao.
Import Py.

Section Code.
Context {rt : Runtime} {E : env}.

Definition extrair_taxa_cdi : M (string * string * Q) :=
  try_except
    (response <- requests_get ;;
     raise_for_status response ;;;
     dados <- response_json response ;;
     tem_dados <- (if truthy dados
                   then n <- len dados ;; ret (0 <? n)%nat
                   else ret false) ;;
     if tem_dados then
       ultimo_registro <- getitem_last dados ;;
       valor <- getitem ultimo_registro "valor" ;;
       taxa <- float valor ;;
       agora <- datetime_now ;;
       ret (strftime_Ymd agora, strftime_HMS agora, taxa)
     else
       raise (Exn ValueError "Nenhum dado CDI encontrado na API"))
    (fun e =>
       if is_RequestException e then Some (
         print ("Erro ao fazer requisição: " +:+ exn_str e) ;;;
         raise e)
       else if is_JSONDecodeError e || is_KeyError e || is_ValueError e then Some (
         print ("Erro ao processar dados: " +:+ exn_str e) ;;;
         raise e)
       else None).

Definition campos : list string := ["data"; "hora"; "taxa"].

Definition salvar_csv (data hora : string) (taxa : Q) : M unit :=
  let arquivo := "taxa-cdi.csv" in
  arquivo_existe <- path_exists arquivo ;;
  try_except
    (with_open_append arquivo
       ((if negb arquivo_existe then writeheader campos else "")
        +:+ writerow [data; hora; str_of_float taxa]) ;;;
     print ("Dados salvos com sucesso: Data=" +:+ data +:+ ", Hora=" +:+ hora
            +:+ ", Taxa=" +:+ str_of_float taxa +:+ "%"))
    (fun e =>
       if is_IOError e then Some (
         print ("Erro ao salvar arquivo CSV: " +:+ exn_str e) ;;;
         raise e)
       else None).

Definition main : M Z :=
  print "Iniciando extração da taxa CDI..." ;;;
  try_except
    (amostra <- extrair_taxa_cdi ;;
     let '(data, hora, taxa) := amostra in
     salvar_csv data hora taxa ;;;
     print "Extração concluída com sucesso!" ;;;
     ret 0%Z)
    (fun e =>
       if is_Exception e then Some (
         print ("Erro durante a execução: " +:+ exn_str e) ;;;
         ret 1%Z)
       else None).

End Code.
End Extracao.

(** ** visualizacao.py *)
Module Visualizacao.
Import Py.

Section Code.
Context {rt : Runtime} {E : env}.

Definition arquivo_padrao : string := "taxa-cdi.csv".

Definition ler_dados_csv (arquivo : string) : M DataFrame :=
  try_except
    (existe <- path_exists arquivo ;;
     if negb existe then
       raise (Exn FileNotFoundError ("Arquivo " +:+ arquivo +:+ " não encontrado"))
     else
       df <- pd_read_csv arquivo ;;
       if negb (in_columns "hora" df) || negb (in_columns "taxa" df) then
         raise (Exn ValueError "Arquivo CSV deve conter as colunas 'hora' e 'taxa'")
       else ret df)
    (fun e =>
       if is_Exception e then Some (
         print ("Erro ao ler arquivo CSV: " +:+ exn_str e) ;;;
         raise e)
       else None).

Definition gerar_grafico (df : DataFrame) (nome_grafico : string) : M unit :=
  try_except
    (horas <- df_getitem df "hora" ;;
     taxas <- df_getitem df "taxa" ;;
     let nome_arquivo := nome_grafico +:+ ".png" in
     savefig nome_arquivo ;;;
     print ("Gráfico salvo como: " +:+ nome_arquivo))
    (fun e =>
       if is_Exception e then Some (
         print ("Erro ao gerar gráfico: " +:+ exn_str e) ;;;
         raise e)
       else None).

(** [argv] is [sys.argv]. *)
Definition main (argv : list string) : M Z :=
  match argv with
  | _ :: nome_grafico :: _ =>
      try_except
        (print "Lendo dados do arquivo CSV..." ;;;
         df <- ler_dados_csv arquivo_padrao ;;
         print ("Total de registros: " +:+ str_nat (length (records df))) ;;;
         print "Gerando visualização..." ;;;
         gerar_grafico df nome_grafico ;;;
         print "Visualização concluída com sucesso!" ;;;
         ret 0%Z)
        (fun e =>
           if is_Exception e then Some (
             print ("Erro durante a execução: " +:+ exn_str e) ;;;
             ret 1%Z)
           else None)
  | _ =>
      print "Uso: python visualizacao.py <nome-do-gráfico>" ;;;
      print "Exemplo: python visualizacao.py grafico-cdi" ;;;
      ret 1%Z
  end.

End Code.
End Visualizacao.

(** ** A runtime and environments to run the code on

    [float(str)] and [str(float)] restricted to plain decimal literals
    (an optional sign, digits, an optional fraction), and a [read_csv]
    that takes the first line as the column names.  On such inputs they agree
    with Python; the properties below hold for every runtime, and this one
    serves to evaluate them. *)
Module Decimal.
Import Py.

Definition digit_value (c : ascii) : option nat :=
  let n := nat_of_ascii c in
  if (48 <=? n)%nat && (n <=? 57)%nat then Some (n - 48)%nat else None.

Fixpoint digits_value (s : string) (acc : nat) : option nat :=
  match s with
  | "" => Some acc
  | String c r =>
      match digit_value c with
      | Some d => digits_value r (10 * acc + d)%nat
      | None => None
      end
  end.

(** Split at the first [sep]; the second component is [None] without one. *)
Fixpoint cut (sep : ascii) (s : string) : string * option string :=
  match s with
  | "" => ("", None)
  | String c r =>
      if Ascii.eqb c sep then ("", Some r)
      else let '(a, b) := cut sep r in (String c a, b)
  end.

Definition unsigned_of_str (s : string) : option Q :=
  match cut "." s with
  | ("", _) => None
  | (int_part, None) =>
      match digits_value int_part 0 with
      | Some n => Some (inject_Z (Z.of_nat n))
      | None => None
      end
  | (_, Some "") => None
  | (int_part, Some frac_part) =>
      match digits_value (int_part +:+ frac_part) 0 with
      | Some n => Some (Z.of_nat n # Pos.of_nat (10 ^ String.length frac_part))
      | None => None
      end
  end.

Definition float_of_str (s : string) : option Q :=
  match s with
  | String "-" r => option_map Qopp (unsigned_of_str r)
  | _ => unsigned_of_str s
  end.

Fixpoint fraction_digits (fuel : nat) (r d : Z) : string :=
  match fuel with
  | O => ""
  | S fuel' =>
      if (r =? 0)%Z then ""
      else digit (Z.to_nat (10 * r / d)) +:+ fraction_digits fuel' (10 * r mod d) d
  end.

Definition str_of_float (q : Q) : string :=
  let n := Z.abs (Qnum q) in
  let d := Zpos (Qden q) in
  let frac := fraction_digits 17 (n mod d) d in
  (if (Qnum q <? 0)%Z then "-" else "")
  +:+ str_nat (Z.to_nat (n / d)) +:+ "."
  +:+ (if String.eqb frac "" then "0" else frac).

Fixpoint split (fuel : nat) (sep : ascii) (s : string) : list string :=
  match fuel with
  | O => [s]
  | S fuel' =>
      match cut sep s with
      | (a, None) => [a]
      | (a, Some b) => a :: split fuel' sep b
      end
  end.

Fixpoint strip_cr (s : string) : string :=
  match s with
  | "" => ""
  | String c r => if Ascii.eqb c CR then strip_cr r else String c (strip_cr r)
  end.

Definition lines (s : string) : list string :=
  filter (fun l => negb (String.eqb l ""))
         (split (String.length s) LF (strip_cr s)).

Definition read_csv (text : string) : result DataFrame :=
  match lines text with
  | [] => Raise (Exn EmptyDataError "No columns to parse from file")
  | header :: rest =>
      Ret (Frame (split (String.length header) comma header)
                 (map (fun l => split (String.length l) comma l) rest))
  end.

#[export] Instance runtime : Runtime :=
  {| Py.float_of_str := float_of_str;
     Py.str_of_float := str_of_float;
     Py.read_csv := read_csv |}.

(** An empty directory, nothing printed yet. *)
Definition fresh : world := World ∅ [] [] [] 0 0 0 0 0.

Definition noon : datetime := DateTime 2024 1 1 10 0 0.

(** The source answers every request with [answer]; the disk always works. *)
Definition steady (answer : http_outcome) : env :=
  Env (fun _ => answer) (fun _ => IoOk) (fun _ => noon) (fun _ => 0%N).

(** As [steady], with the [n]-th [open] meeting [fault]. *)
Definition faulty_disk (answer : http_outcome) (n : nat) (fault : io_fault) : env :=
  Env (fun _ => answer) (fun k => if (k =? n)%nat then fault else IoOk)
      (fun _ => noon) (fun _ => 0%N).

(** The source answers the [n]-th request with [odd_one], the others with
    [answer]. *)
Definition hiccup (answer odd_one : http_outcome) (n : nat) : env :=
  Env (fun k => if (k =? n)%nat then odd_one else answer) (fun _ => IoOk)
      (fun _ => noon) (fun _ => 0%N).

Definition one_point (valor : string) : http_outcome :=
  Response 200 (Some (JArr [JObj [("data", JStr "01/01/2024"); ("valor", JStr valor)]])).

End Decimal.

(** ** Call sequences and predicates the properties are stated on *)
Module Seqs.
Import Py.

Section Code.
Context {rt : Runtime} {E : env}.

(** One observation: date, time, rate. *)
Definition observacao : Type := string * string * Q.

(** The record line [salvar_csv] writes for an observation. *)
Definition linha (o : observacao) : string :=
  let '(data, hora, taxa) := o in writerow [data; hora; str_of_float taxa].

Definition cabecalho : string := writeheader Analise.campos.

(** [salvar_csv] of [analise.py] called once per observation, in order. *)
Definition salvar_varios (obs : list observacao) (arquivo : string) : M unit :=
  for_each obs (fun o => let '(data, hora, taxa) := o in
                         Analise.salvar_csv data hora taxa arquivo).

(** The same for [salvar_csv] of [extracao.py]. *)
Definition salvar_varios_extracao (obs : list observacao) : M unit :=
  for_each obs (fun o => let '(data, hora, taxa) := o in
                         Extracao.salvar_csv data hora taxa).

(** The text one [salvar_csv] hands to the file: the header when the
    path was absent at the check, then the record line. *)
Definition texto (existe : bool) (o : observacao) : string :=
  (if negb existe then cabecalho else "") +:+ linha o.

(** The record lines of a list of observations, one after the other. *)
Fixpoint linhas (obs : list observacao) : string :=
  match obs with
  | [] => ""
  | o :: rest => linha o +:+ linhas rest
  end.

(** [f] behaves as an append to [arquivo] whenever the disk raises no
    fault: it returns, puts [texto] after the file's content and opens
    the file once. *)
Definition acrescenta (f : observacao -> M unit) (arquivo : string) : Prop :=
  forall o w,
    disk (n_open w) = IoOk ->
    fst (f o w) = Ret tt /\
    fs (snd (f o w)) =
      <[arquivo := content (fs w) arquivo
                   +:+ texto (bool_decide (is_Some (fs w !! arquivo))) o]> (fs w) /\
    n_open (snd (f o w)) = S (n_open w).

(** A request that fails at the network layer: the call itself fails, or
    the status is one [raise_for_status] rejects. *)
Definition falha_de_rede (o : http_outcome) : bool :=
  match o with
  | GetFails _ => true
  | Response status _ => (400 <=? status)%nat && (status <? 600)%nat
  end.

(** The file's text yields a frame that has both the [hora] and the
    [taxa] column. *)
Definition tem_colunas (text : string) : bool :=
  match read_csv text with
  | Ret df => in_columns "hora" df && in_columns "taxa" df
  | Raise _ => false
  end.

(** What the reader raises on a text without the two columns: the error of
    [read_csv] when it gives no frame, the reader's own [ValueError]
    otherwise. *)
Definition erro_de_leitura (text : string) : exn :=
  match read_csv text with
  | Ret _ => Exn ValueError "Arquivo CSV deve conter as colunas 'hora' e 'taxa'"
  | Raise e => e
  end.

(** The exception a network-layer failure raises inside the sampler. *)
Definition erro_de_rede (o : http_outcome) : exn :=
  match o with
  | GetFails err => net_exn err
  | Response status _ => Exn HTTPError (str_nat status +:+ " Error")
  end.

(** A response that arrives with an acceptable status and a decodable
    body holding no data. *)
Definition sem_dados (o : http_outcome) : bool :=
  match o with
  | Response status (Some dados) =>
      negb ((400 <=? status)%nat && (status <? 600)%nat) && negb (truthy dados)
  | _ => false
  end.




End Code.
End Seqs.

Import Py.

(** * Properties *)

(** ** Strings *)

Lemma str_app_cons (c : ascii) (a b : string) :
  String c a +:+ b = String c (a +:+ b).
Proof. reflexivity. Qed.

Lemma str_app_nil_r (s : string) : s +:+ "" = s.
Proof.
  induction s as [|c s IH]; [reflexivity |].
  rewrite str_app_cons, IH. reflexivity.
Qed.

Lemma str_app_assoc (a b c : string) : (a +:+ b) +:+ c = a +:+ (b +:+ c).
Proof.
  induction a as [|x a IH]; [reflexivity |].
  rewrite !str_app_cons, IH. reflexivity.
Qed.

(** ** The append store *)
Section Store.
Context {rt : Runtime} {E : env}.

Lemma os_exn_is_IOError err path : is_IOError (os_exn err path) = true.
Proof. destruct err; reflexivity. Qed.

(** What one [salvar_csv] of [analise.py] does, by what the disk does. *)
Lemma salvar_csv_run data hora taxa arquivo w :
  Analise.salvar_csv data hora taxa arquivo w =
  let existe := bool_decide (is_Some (fs w !! arquivo)) in
  let text := Seqs.texto existe (data, hora, taxa) in
  match disk (n_open w) with
  | IoOk =>
      (Ret tt,
       World (<[arquivo := content (fs w) arquivo +:+ text]> (fs w))
             (stdout w ++ ["Dados salvos: Data=" +:+ data +:+ ", Hora=" +:+ hora
                           +:+ ", Taxa=" +:+ str_of_float taxa +:+ "%"])
             (sleeps w) (charts w) (n_get w) (S (n_open w)) (n_now w) (n_rand w) (n_read w))
  | IoOpenFails err =>
      (Raise (os_exn err arquivo),
       World (fs w)
             (stdout w ++ ["Erro ao salvar arquivo CSV: " +:+ exn_str (os_exn err arquivo)])
             (sleeps w) (charts w) (n_get w) (S (n_open w)) (n_now w) (n_rand w) (n_read w))
  | IoFlushFails written err =>
      (Raise (os_exn err arquivo),
       World (<[arquivo := content (fs w) arquivo +:+ substring 0 written text]> (fs w))
             (stdout w ++ ["Erro ao salvar arquivo CSV: " +:+ exn_str (os_exn err arquivo)])
             (sleeps w) (charts w) (n_get w) (S (n_open w)) (n_now w) (n_rand w) (n_read w))
  end.
Proof.
  unfold Analise.salvar_csv, bind, try_except, path_exists, with_open_append.
  cbn beta iota. cbv zeta.
  destruct (disk (n_open w)) as [|err|k err]; cbn beta iota.
  - reflexivity.
  - rewrite os_exn_is_IOError. reflexivity.
  - rewrite os_exn_is_IOError. reflexivity.
Qed.

(** The same for [salvar_csv] of [extracao.py], on its fixed path. *)
Lemma salvar_csv_extracao_run data hora taxa w :
  Extracao.salvar_csv data hora taxa w =
  let arquivo := "taxa-cdi.csv" in
  let existe := bool_decide (is_Some (fs w !! arquivo)) in
  let text := Seqs.texto existe (data, hora, taxa) in
  match disk (n_open w) with
  | IoOk =>
      (Ret tt,
       World (<[arquivo := content (fs w) arquivo +:+ text]> (fs w))
             (stdout w ++ ["Dados salvos com sucesso: Data=" +:+ data +:+ ", Hora=" +:+ hora
                           +:+ ", Taxa=" +:+ str_of_float taxa +:+ "%"])
             (sleeps w) (charts w) (n_get w) (S (n_open w)) (n_now w) (n_rand w) (n_read w))
  | IoOpenFails err =>
      (Raise (os_exn err arquivo),
       World (fs w)
             (stdout w ++ ["Erro ao salvar arquivo CSV: " +:+ exn_str (os_exn err arquivo)])
             (sleeps w) (charts w) (n_get w) (S (n_open w)) (n_now w) (n_rand w) (n_read w))
  | IoFlushFails written err =>
      (Raise (os_exn err arquivo),
       World (<[arquivo := content (fs w) arquivo +:+ substring 0 written text]> (fs w))
             (stdout w ++ ["Erro ao salvar arquivo CSV: " +:+ exn_str (os_exn err arquivo)])
             (sleeps w) (charts w) (n_get w) (S (n_open w)) (n_now w) (n_rand w) (n_read w))
  end.
Proof.
  unfold Extracao.salvar_csv, bind, try_except, path_exists, with_open_append.
  cbn beta iota. cbv zeta.
  destruct (disk (n_open w)) as [|err|k err]; cbn beta iota.
  - reflexivity.
  - rewrite os_exn_is_IOError. reflexivity.
  - rewrite os_exn_is_IOError. reflexivity.
Qed.

Lemma analise_acrescenta arquivo :
  Seqs.acrescenta (fun o => let '(data, hora, taxa) := o in
                            Analise.salvar_csv data hora taxa arquivo) arquivo.
Proof.
  intros [[data hora] taxa] w Hdisk.
  rewrite salvar_csv_run. cbv zeta. rewrite Hdisk. cbn. auto.
Qed.

Lemma extracao_acrescenta :
  Seqs.acrescenta (fun o => let '(data, hora, taxa) := o in
                            Extracao.salvar_csv data hora taxa) "taxa-cdi.csv".
Proof.
  intros [[data hora] taxa] w Hdisk.
  rewrite salvar_csv_extracao_run. cbv zeta. rewrite Hdisk. cbn. auto.
Qed.

Lemma content_lookup (f : gmap string string) path c :
  f !! path = Some c -> content f path = c.
Proof. unfold content. intros ->. reflexivity. Qed.

Lemma existe_true (f : gmap string string) path c :
  f !! path = Some c -> bool_decide (is_Some (f !! path)) = true.
Proof. intros Hc. apply bool_decide_eq_true_2. rewrite Hc. eauto. Qed.

Lemma existe_false (f : gmap string string) path :
  f !! path = None -> bool_decide (is_Some (f !! path)) = false.
Proof.
  intros Hc. apply bool_decide_eq_false_2. rewrite Hc. intros [? ?]. discriminate.
Qed.

(** Appends to a file that exists add the record lines and nothing else. *)
Lemma for_each_acrescenta f arquivo (Hf : Seqs.acrescenta f arquivo) obs :
  forall w c,
    fs w !! arquivo = Some c ->
    (forall k, (n_open w <= k < n_open w + length obs)%nat -> disk k = IoOk) ->
    fst (for_each obs f w) = Ret tt /\
    fs (snd (for_each obs f w)) !! arquivo = Some (c +:+ Seqs.linhas obs).
Proof.
  induction obs as [|o rest IH]; intros w c Hc Hdisk.
  - cbn. rewrite str_app_nil_r. auto.
  - destruct (Hf o w) as (Hr & Hfs & Hn).
    { apply Hdisk. cbn. lia. }
    cbn [for_each]. unfold bind.
    destruct (f o w) as [r w1]. cbn in Hr, Hfs, Hn. subst r.
    assert (Hc1 : fs w1 !! arquivo = Some (c +:+ Seqs.linha o)).
    { rewrite Hfs, lookup_insert_eq, (content_lookup _ _ _ Hc).
      rewrite (existe_true _ _ _ Hc). reflexivity. }
    destruct (IH w1 _ Hc1) as (Hr' & Hfs').
    { intros k Hk. apply Hdisk. cbn. lia. }
    split; [exact Hr' |].
    rewrite Hfs'. cbn [Seqs.linhas]. now rewrite str_app_assoc.
Qed.

(** From an absent path: the header once, then the record lines. *)
Lemma for_each_cria f arquivo (Hf : Seqs.acrescenta f arquivo) o rest w :
  fs w !! arquivo = None ->
  (forall k, (n_open w <= k < n_open w + length (o :: rest))%nat -> disk k = IoOk) ->
  fst (for_each (o :: rest) f w) = Ret tt /\
  fs (snd (for_each (o :: rest) f w)) !! arquivo
    = Some (Seqs.cabecalho +:+ Seqs.linhas (o :: rest)).
Proof.
  intros Hnone Hdisk.
  destruct (Hf o w) as (Hr & Hfs & Hn).
  { apply Hdisk. cbn. lia. }
  cbn [for_each]. unfold bind.
  destruct (f o w) as [r w1]. cbn in Hr, Hfs, Hn. subst r.
  assert (Hc1 : fs w1 !! arquivo = Some (Seqs.cabecalho +:+ Seqs.linha o)).
  { rewrite Hfs, lookup_insert_eq, (existe_false _ _ Hnone).
    unfold content. rewrite Hnone. reflexivity. }
  destruct (for_each_acrescenta f arquivo Hf rest w1 _ Hc1) as (Hr' & Hfs').
  { intros k Hk. apply Hdisk. cbn. lia. }
  split; [exact Hr' |].
  rewrite Hfs'. cbn [Seqs.linhas]. now rewrite str_app_assoc.
Qed.

(** C1: N >= 1 calls of [salvar_csv] on a path that does not exist, none
    of them meeting a disk fault, all return and leave a file made of the
    header line [data,hora,taxa] once, followed by the N record lines in call
    order; this holds for [analise.py] on any path and for [extracao.py] on
    its fixed path.  (With no call at all the path stays absent.)  When
    [str(13.25)] is [13.25], a single append of 2024-01-01, 10:00:00, 13.25
    leaves the header line and the line [2024-01-01,10:00:00,13.25]. *)
Theorem C1_header_once_then_rows
    (obs : list Seqs.observacao) (arquivo : string) (w : world) :
  obs <> [] ->
  fs w !! arquivo = None ->
  (forall k, (n_open w <= k < n_open w + length obs)%nat -> disk k = IoOk) ->
  Seqs.cabecalho = "data,hora,taxa" +:+ lineterminator /\
  (fst (Seqs.salvar_varios obs arquivo w) = Ret tt /\
   fs (snd (Seqs.salvar_varios obs arquivo w)) !! arquivo
     = Some (Seqs.cabecalho +:+ Seqs.linhas obs)) /\
  (arquivo = "taxa-cdi.csv" ->
   fst (Seqs.salvar_varios_extracao obs w) = Ret tt /\
   fs (snd (Seqs.salvar_varios_extracao obs w)) !! arquivo
     = Some (Seqs.cabecalho +:+ Seqs.linhas obs)) /\
  (obs = [("2024-01-01", "10:00:00", 13.25%Q)] ->
   str_of_float 13.25 = "13.25" ->
   fs (snd (Seqs.salvar_varios obs arquivo w)) !! arquivo
     = Some ("data,hora,taxa" +:+ lineterminator
             +:+ "2024-01-01,10:00:00,13.25" +:+ lineterminator)).
Proof.
  intros Hobs Hnone Hdisk.
  destruct obs as [|o rest]; [congruence |].
  pose proof (for_each_cria _ arquivo (analise_acrescenta arquivo) o rest w Hnone Hdisk)
    as HA.
  split; [reflexivity |].
  split; [exact HA |].
  split.
  - intros ->.
    exact (for_each_cria _ _ extracao_acrescenta o rest w Hnone Hdisk).
  - intros Heq Hstr. destruct HA as [_ HA].
    unfold Seqs.salvar_varios in HA |- *. rewrite HA.
    injection Heq as -> ->.
    cbn [Seqs.linhas Seqs.linha]. rewrite Hstr. reflexivity.
Qed.


(** C9: the header is decided by the existence of the path alone.  On a
    path that exists, whatever it holds, a call that meets no disk fault
    adds the record line and no header; on an existing empty file the
    result is the bare record line.  [extracao.py] does the same on its
    fixed path. *)
Theorem C9_no_header_on_existing_path
    (data hora : string) (taxa : Q) (arquivo : string) (w : world) (c : string) :
  fs w !! arquivo = Some c ->
  disk (n_open w) = IoOk ->
  fs (snd (Analise.salvar_csv data hora taxa arquivo w)) !! arquivo
    = Some (c +:+ Seqs.linha (data, hora, taxa)) /\
  (c = "" ->
   fs (snd (Analise.salvar_csv data hora taxa arquivo w)) !! arquivo
     = Some (Seqs.linha (data, hora, taxa))) /\
  (arquivo = "taxa-cdi.csv" ->
   fs (snd (Extracao.salvar_csv data hora taxa w)) !! arquivo
     = Some (c +:+ Seqs.linha (data, hora, taxa))).
Proof.
  intros Hc Hdisk.
  assert (HA : fs (snd (Analise.salvar_csv data hora taxa arquivo w)) !! arquivo
               = Some (c +:+ Seqs.linha (data, hora, taxa))).
  { rewrite salvar_csv_run. cbv zeta. rewrite Hdisk. cbn [snd fs].
    rewrite lookup_insert_eq, (existe_true _ _ _ Hc), (content_lookup _ _ _ Hc).
    reflexivity. }
  split; [exact HA |]. split.
  - intros ->. exact HA.
  - intros ->. rewrite salvar_csv_extracao_run. cbv zeta. rewrite Hdisk. cbn [snd fs].
    rewrite lookup_insert_eq, (existe_true _ _ _ Hc), (content_lookup _ _ _ Hc).
    reflexivity.
Qed.

(** C7: when [open] fails or the text fails to reach the file, [salvar_csv]
    prints [Erro ao salvar arquivo CSV: ...] with the error's text and
    raises that same error to its caller, in [analise.py] and in
    [extracao.py]. *)
Theorem C7_io_failure_logged_and_reraised
    (data hora : string) (taxa : Q) (arquivo : string) (w : world) (err : os_error) :
  (disk (n_open w) = IoOpenFails err \/
   exists written, disk (n_open w) = IoFlushFails written err) ->
  (fst (Analise.salvar_csv data hora taxa arquivo w) = Raise (os_exn err arquivo) /\
   stdout (snd (Analise.salvar_csv data hora taxa arquivo w))
     = (stdout w ++ ["Erro ao salvar arquivo CSV: " +:+ exn_str (os_exn err arquivo)])%list) /\
  (fst (Extracao.salvar_csv data hora taxa w) = Raise (os_exn err "taxa-cdi.csv") /\
   stdout (snd (Extracao.salvar_csv data hora taxa w))
     = (stdout w
        ++ ["Erro ao salvar arquivo CSV: " +:+ exn_str (os_exn err "taxa-cdi.csv")])%list).
Proof.
  intros Hfault.
  rewrite salvar_csv_run, salvar_csv_extracao_run. cbv zeta.
  destruct Hfault as [Hd | [k Hd]]; rewrite Hd; cbn [fst snd stdout]; auto.
Qed.

End Store.

Lemma C1_witness :
  fs (snd (Seqs.salvar_varios (rt := Decimal.runtime)
             (E := Decimal.steady (Decimal.one_point "13.25"))
             [("2024-01-01", "10:00:00", 13.25%Q)] "taxa-cdi.csv" Decimal.fresh))
    !! "taxa-cdi.csv"
  = Some ("data,hora,taxa" +:+ lineterminator
          +:+ "2024-01-01,10:00:00,13.25" +:+ lineterminator).
Proof.
  apply (C1_header_once_then_rows (rt := Decimal.runtime)
             (E := Decimal.steady (Decimal.one_point "13.25"))
           [("2024-01-01", "10:00:00", 13.25%Q)] "taxa-cdi.csv" Decimal.fresh);
    [discriminate | reflexivity | intros; reflexivity | reflexivity | reflexivity].
Defined.


Lemma C9_witness :
  fs (snd (Analise.salvar_csv (rt := Decimal.runtime)
             (E := Decimal.steady (Decimal.one_point "13.25"))
             "2024-01-01" "10:00:00" 13.25 "taxa-cdi.csv"
             (set_fs {["taxa-cdi.csv" := ""]} Decimal.fresh)))
    !! "taxa-cdi.csv"
  = Some ("2024-01-01,10:00:00,13.25" +:+ lineterminator).
Proof.
  apply (C9_no_header_on_existing_path (rt := Decimal.runtime)
           (E := Decimal.steady (Decimal.one_point "13.25"))
           "2024-01-01" "10:00:00" 13.25 "taxa-cdi.csv"
           (set_fs {["taxa-cdi.csv" := ""]} Decimal.fresh) "");
    reflexivity.
Defined.

Lemma C7_witness :
  fst (Analise.salvar_csv (rt := Decimal.runtime)
         (E := Decimal.faulty_disk (Decimal.one_point "13.25") 0 (IoOpenFails EACCES))
         "2024-01-01" "10:00:00" 13.25 "taxa-cdi.csv" Decimal.fresh)
  = Raise (Exn PermissionError "[Errno 13] Permission denied: 'taxa-cdi.csv'").
Proof.
  apply (C7_io_failure_logged_and_reraised (rt := Decimal.runtime)
           (E := Decimal.faulty_disk (Decimal.one_point "13.25") 0 (IoOpenFails EACCES))
           "2024-01-01" "10:00:00" 13.25 "taxa-cdi.csv" Decimal.fresh EACCES).
  left. reflexivity.
Defined.

(** ** The sampler *)

(** Case analysis on the innermost [match] the goal is stuck on, until none
    is left. *)
Ltac crunch :=
  repeat (cbn beta iota;
          match goal with
          | |- context [match ?x with _ => _ end] =>
              lazymatch x with
              | context [match _ with _ => _ end] => fail
              | _ => destruct x eqn:?
              end
          end).

Section Sampler.
Context {rt : Runtime} {E : env}.




(** On a network-layer failure the sampler of [analise.py] warns, draws a
    rate and stamps it with the clock. *)
Lemma analise_extrair_falha (w : world) :
  Seqs.falha_de_rede (net (n_get w)) = true ->
  Analise.extrair_taxa_cdi w =
  (Ret (strftime_Ymd (clock (n_now w)), strftime_HMS (clock (n_now w)),
        round (12.5 + (13.8 - 12.5) * (Z.of_N (dice (n_rand w) mod 2 ^ 53) # 2 ^ 53)) 4),
   World (fs w)
         (stdout w ++ ["Aviso: Não foi possível conectar à API da B3. Usando dados simulados."])
         (sleeps w) (charts w) (S (n_get w)) (n_open w) (S (n_now w)) (S (n_rand w))
         (n_read w)).
Proof.
  intros Hfalha.
  unfold Analise.extrair_taxa_cdi, try_except, bind, requests_get, raise_for_status.
  destruct (net (n_get w)) as [err | status body]; cbn [Seqs.falha_de_rede] in Hfalha.
  - destruct err; reflexivity.
  - cbn [fst]. rewrite Hfalha. reflexivity.
Qed.


(** *** Responses that arrive: the data-integrity side *)

(** A decodable body that is falsy (an empty array or object, [null], ...)
    is reported and raised as [ValueError]. *)
Lemma analise_extrair_sem_dados (w : world) status dados :
  net (n_get w) = Response status (Some dados) ->
  Seqs.falha_de_rede (net (n_get w)) = false ->
  truthy dados = false ->
  fst (Analise.extrair_taxa_cdi w)
    = Raise (Exn ValueError "Nenhum dado CDI encontrado na API") /\
  stdout (snd (Analise.extrair_taxa_cdi w))
    = (stdout w ++ ["Erro ao processar dados: Nenhum dado CDI encontrado na API"])%list.
Proof.
  intros Hnet Hfalha Hfalsy. rewrite Hnet in Hfalha. cbn [Seqs.falha_de_rede] in Hfalha.
  unfold Analise.extrair_taxa_cdi, try_except, bind, requests_get, raise_for_status,
    response_json.
  rewrite Hnet. cbn [fst snd]. rewrite Hfalha. cbn. rewrite Hfalsy. cbn. auto.
Qed.

(** A last record without the [valor] field is reported and raised as
    [KeyError]. *)
Lemma analise_extrair_sem_valor (w : world) status items members :
  net (n_get w) = Response status (Some (JArr items)) ->
  Seqs.falha_de_rede (net (n_get w)) = false ->
  last items = Some (JObj members) ->
  assoc "valor" members = None ->
  fst (Analise.extrair_taxa_cdi w) = Raise (Exn KeyError "'valor'") /\
  stdout (snd (Analise.extrair_taxa_cdi w))
    = (stdout w ++ ["Erro ao processar dados: 'valor'"])%list.
Proof.
  intros Hnet Hfalha Hlast Hassoc. rewrite Hnet in Hfalha. cbn [Seqs.falha_de_rede] in Hfalha.
  unfold Analise.extrair_taxa_cdi, try_except, bind, requests_get, raise_for_status,
    response_json.
  rewrite Hnet. cbn [fst snd]. rewrite Hfalha.
  destruct items as [|x items]; [discriminate |].
  cbn -[last]. rewrite Hlast. cbn. rewrite Hassoc. cbn. auto.
Qed.

(** A [valor] that is a string [float] rejects is reported and raised as
    [ValueError]. *)
Lemma analise_extrair_valor_invalido (w : world) status items members s :
  net (n_get w) = Response status (Some (JArr items)) ->
  Seqs.falha_de_rede (net (n_get w)) = false ->
  last items = Some (JObj members) ->
  assoc "valor" members = Some (JStr s) ->
  float_of_str s = None ->
  fst (Analise.extrair_taxa_cdi w)
    = Raise (Exn ValueError ("could not convert string to float: '" +:+ s +:+ "'")) /\
  stdout (snd (Analise.extrair_taxa_cdi w))
    = (stdout w ++ ["Erro ao processar dados: could not convert string to float: '"
                    +:+ s +:+ "'"])%list.
Proof.
  intros Hnet Hfalha Hlast Hassoc Hfloat. rewrite Hnet in Hfalha. cbn [Seqs.falha_de_rede] in Hfalha.
  unfold Analise.extrair_taxa_cdi, try_except, bind, requests_get, raise_for_status,
    response_json.
  rewrite Hnet. cbn [fst snd]. rewrite Hfalha.
  destruct items as [|x items]; [discriminate |].
  cbn -[last]. rewrite Hlast. cbn. rewrite Hassoc. cbn. rewrite Hfloat. cbn. auto.
Qed.


(** A response with an acceptable status whose body is not JSON: [json()]
    raises the [JSONDecodeError] of [requests], the first [except] clause
    takes it, and the sampler answers with a synthesized observation. *)
Lemma analise_extrair_corpo_ilegivel (w : world) status :
  net (n_get w) = Response status None ->
  Seqs.falha_de_rede (net (n_get w)) = false ->
  Analise.extrair_taxa_cdi w =
  (Ret (strftime_Ymd (clock (n_now w)), strftime_HMS (clock (n_now w)),
        round (12.5 + (13.8 - 12.5) * (Z.of_N (dice (n_rand w) mod 2 ^ 53) # 2 ^ 53)) 4),
   World (fs w)
         (stdout w ++ ["Aviso: Não foi possível conectar à API da B3. Usando dados simulados."])
         (sleeps w) (charts w) (S (n_get w)) (n_open w) (S (n_now w)) (S (n_rand w))
         (n_read w)).
Proof.
  intros Hnet Hfalha. rewrite Hnet in Hfalha. cbn [Seqs.falha_de_rede] in Hfalha.
  unfold Analise.extrair_taxa_cdi, try_except, bind, requests_get, raise_for_status,
    response_json.
  rewrite Hnet. cbn [fst snd]. rewrite Hfalha. reflexivity.
Qed.

(** *** The single-shot entry point *)

Lemma extracao_extrair_falha (w : world) :
  Seqs.falha_de_rede (net (n_get w)) = true ->
  Extracao.extrair_taxa_cdi w =
  (Raise (Seqs.erro_de_rede (net (n_get w))),
   World (fs w)
         (stdout w ++ ["Erro ao fazer requisição: "
                       +:+ exn_str (Seqs.erro_de_rede (net (n_get w)))])
         (sleeps w) (charts w) (S (n_get w)) (n_open w) (n_now w) (n_rand w) (n_read w)).
Proof.
  intros Hfalha.
  unfold Extracao.extrair_taxa_cdi, try_except, bind, requests_get, raise_for_status.
  destruct (net (n_get w)) as [err | status body]; cbn [Seqs.falha_de_rede] in Hfalha.
  - destruct err; reflexivity.
  - cbn [fst]. rewrite Hfalha. reflexivity.
Qed.

Lemma erro_de_rede_is_RequestException (o : http_outcome) :
  is_RequestException (Seqs.erro_de_rede o) = true.
Proof. destruct o as [[|]|]; reflexivity. Qed.

(** The sampler of [extracao.py] never draws a random number and never
    touches the store. *)
Lemma extracao_extrair_frame (w : world) :
  n_rand (snd (Extracao.extrair_taxa_cdi w)) = n_rand w /\
  fs (snd (Extracao.extrair_taxa_cdi w)) = fs w /\
  n_open (snd (Extracao.extrair_taxa_cdi w)) = n_open w.
Proof.
  destruct (Seqs.falha_de_rede (net (n_get w))) eqn:Hfalha.
  - rewrite (extracao_extrair_falha w Hfalha). cbn. auto.
  - unfold Extracao.extrair_taxa_cdi, try_except, bind, requests_get, raise_for_status,
      response_json.
    destruct (net (n_get w)) as [err | status body]; [discriminate |].
    cbn [Seqs.falha_de_rede] in Hfalha. cbn [fst snd]. rewrite Hfalha. clear Hfalha.
    unfold len, getitem_last, getitem, float, datetime_now, ret, raise, print, bind.
    crunch; cbn; auto; cbn in *; discriminate.
Qed.

(** C10: the sampler of the single-shot entry point never synthesizes: it
    draws no random number on any path, and on a network-layer failure it
    prints [Erro ao fazer requisição: ...] and raises that error again;
    [main] then ends with status 1 and the store as it was.  No random number
    is drawn anywhere in [main]. *)
Theorem C10_single_shot_never_synthesizes (w : world) :
  n_rand (snd (Extracao.extrair_taxa_cdi w)) = n_rand w /\
  n_rand (snd (Extracao.main w)) = n_rand w /\
  (Seqs.falha_de_rede (net (n_get w)) = true ->
   let e := Seqs.erro_de_rede (net (n_get w)) in
   is_RequestException e = true /\
   fst (Extracao.extrair_taxa_cdi w) = Raise e /\
   stdout (snd (Extracao.extrair_taxa_cdi w))
     = (stdout w ++ ["Erro ao fazer requisição: " +:+ exn_str e])%list /\
   fst (Extracao.main w) = Ret 1%Z /\
   fs (snd (Extracao.main w)) = fs w /\
   n_open (snd (Extracao.main w)) = n_open w).
Proof.
  split; [apply extracao_extrair_frame |]. split.
  - unfold Extracao.main, try_except, bind, print.
    pose proof (extracao_extrair_frame
                  (World (fs w) (stdout w ++ ["Iniciando extração da taxa CDI..."])
                         (sleeps w) (charts w) (n_get w) (n_open w) (n_now w)
                         (n_rand w) (n_read w))) as (Hr & _ & _).
    cbn [n_rand] in Hr.
    destruct (Extracao.extrair_taxa_cdi _) as [[[[data hora] taxa] | e] w1].
    + cbn [snd] in Hr. rewrite salvar_csv_extracao_run. cbv zeta.
      destruct (disk (n_open w1)); cbn; exact Hr.
    + cbn. exact Hr.
  - intros Hfalha e. subst e.
    split; [apply erro_de_rede_is_RequestException |].
    rewrite (extracao_extrair_falha w Hfalha). cbn [fst snd stdout].
    split; [reflexivity |]. split; [reflexivity |].
    unfold Extracao.main, try_except, bind, print.
    rewrite extracao_extrair_falha by exact Hfalha.
    cbn. auto.
Qed.

End Sampler.

(** ** The reader *)
Section Reader.
Context {rt : Runtime}.

Lemma ler_dados_csv_ausente (arquivo : string) (w : world) :
  fs w !! arquivo = None ->
  Visualizacao.ler_dados_csv arquivo w =
  (Raise (Exn FileNotFoundError ("Arquivo " +:+ arquivo +:+ " não encontrado")),
   World (fs w)
         (stdout w ++ ["Erro ao ler arquivo CSV: Arquivo " +:+ arquivo +:+ " não encontrado"])
         (sleeps w) (charts w) (n_get w) (n_open w) (n_now w) (n_rand w) (n_read w)).
Proof.
  intros Hnone.
  unfold Visualizacao.ler_dados_csv, try_except, bind, path_exists.
  rewrite (existe_false _ _ Hnone). reflexivity.
Qed.

Lemma ler_dados_csv_sem_colunas (arquivo : string) (w : world) (c : string) :
  fs w !! arquivo = Some c ->
  Seqs.tem_colunas c = false ->
  Visualizacao.ler_dados_csv arquivo w =
  (Raise (Seqs.erro_de_leitura c),
   World (fs w)
         (stdout w ++ ["Erro ao ler arquivo CSV: " +:+ exn_str (Seqs.erro_de_leitura c)])
         (sleeps w) (charts w) (n_get w) (n_open w) (n_now w) (n_rand w) (S (n_read w))).
Proof.
  intros Hc Hcols.
  unfold Visualizacao.ler_dados_csv, try_except, bind, path_exists, pd_read_csv.
  rewrite (existe_true _ _ _ Hc). cbn [negb fs].
  rewrite (content_lookup _ _ _ Hc).
  unfold Seqs.tem_colunas in Hcols. unfold Seqs.erro_de_leitura.
  destruct (read_csv c) as [df | e].
  - destruct (in_columns "hora" df), (in_columns "taxa" df);
      try discriminate; reflexivity.
  - reflexivity.
Qed.

(** With a chart name on the command line, [main] of [visualizacao.py]
    answers 1 and writes no image once the reader raises. *)
Lemma visualizacao_main_reader_fails prog nome resto (w : world) e w' :
  Visualizacao.ler_dados_csv Visualizacao.arquivo_padrao
    (snd (print "Lendo dados do arquivo CSV..." w)) = (Raise e, w') ->
  charts w' = charts w ->
  fst (Visualizacao.main (prog :: nome :: resto) w) = Ret 1%Z /\
  charts (snd (Visualizacao.main (prog :: nome :: resto) w)) = charts w.
Proof.
  intros Hler Hcharts.
  unfold Visualizacao.main, try_except, bind.
  destruct (print "Lendo dados do arquivo CSV..." w) as [[[]|?] w0] eqn:Hp;
    [| discriminate].
  cbn [snd] in Hler. rewrite Hler. cbn. auto.
Qed.

(** C8: on an absent file the reader raises [FileNotFoundError] with its
    message before anything is parsed; on a file whose text gives no frame
    with both [hora] and [taxa] it raises an error with a message, which is
    its own [ValueError] naming the two columns when the file parses to a
    frame; each time the error is printed, and [main] ends with status 1
    without writing an image. *)
Theorem C8_reader_rejects_missing_columns
    (w : world) (prog nome : string) (resto : list string) :
  let arquivo := Visualizacao.arquivo_padrao in
  let r := Visualizacao.ler_dados_csv arquivo w in
  let m := Visualizacao.main (prog :: nome :: resto) w in
  (fs w !! arquivo = None ->
   fst r = Raise (Exn FileNotFoundError ("Arquivo " +:+ arquivo +:+ " não encontrado")) /\
   n_read (snd r) = n_read w /\
   fst m = Ret 1%Z /\ charts (snd m) = charts w) /\
  (forall c, fs w !! arquivo = Some c -> Seqs.tem_colunas c = false ->
   fst r = Raise (Seqs.erro_de_leitura c) /\
   (forall df, read_csv c = Ret df ->
      fst r = Raise (Exn ValueError "Arquivo CSV deve conter as colunas 'hora' e 'taxa'")) /\
   stdout (snd r)
     = (stdout w ++ ["Erro ao ler arquivo CSV: " +:+ exn_str (Seqs.erro_de_leitura c)])%list /\
   fst m = Ret 1%Z /\ charts (snd m) = charts w).
Proof.
  cbv zeta. split.
  - intros Hnone. rewrite (ler_dados_csv_ausente _ w Hnone). cbn [fst snd n_read].
    split; [reflexivity |]. split; [reflexivity |].
    eapply visualizacao_main_reader_fails;
      [apply ler_dados_csv_ausente; exact Hnone | reflexivity].
  - intros c Hc Hcols. rewrite (ler_dados_csv_sem_colunas _ w c Hc Hcols).
    cbn [fst snd stdout].
    split; [reflexivity |]. split.
    { intros df Hdf. unfold Seqs.erro_de_leitura. rewrite Hdf. reflexivity. }
    split; [reflexivity |].
    eapply visualizacao_main_reader_fails;
      [apply (ler_dados_csv_sem_colunas _ _ c); assumption | reflexivity].
Qed.

End Reader.

(** ** The batch collector *)
Section Collector.
Context {rt : Runtime} {E : env}.

(** One call of the sampler is one request; it leaves the store and the
    sleep log alone. *)
Lemma analise_extrair_frame (w : world) :
  n_get (snd (Analise.extrair_taxa_cdi w)) = S (n_get w) /\
  sleeps (snd (Analise.extrair_taxa_cdi w)) = sleeps w /\
  fs (snd (Analise.extrair_taxa_cdi w)) = fs w.
Proof.
  destruct (Seqs.falha_de_rede (net (n_get w))) eqn:Hfalha.
  - rewrite (analise_extrair_falha w Hfalha). cbn. auto.
  - destruct (net (n_get w)) as [err | status [dados|]] eqn:Hnet; [discriminate | |].
    + unfold Analise.extrair_taxa_cdi, try_except, bind, requests_get, raise_for_status,
        response_json.
      rewrite Hnet. cbn [Seqs.falha_de_rede] in Hfalha. cbn [fst snd].
      rewrite Hfalha. clear Hfalha.
      unfold len, getitem_last, getitem, float, datetime_now, random_uniform,
        random_random, ret, raise, print, bind.
      crunch; cbn; auto; cbn in *; discriminate.
    + rewrite (analise_extrair_corpo_ilegivel w status Hnet)
        by (rewrite Hnet; exact Hfalha).
      cbn. auto.
Qed.

Lemma salvar_csv_frame data hora taxa arquivo (w : world) :
  n_get (snd (Analise.salvar_csv data hora taxa arquivo w)) = n_get w /\
  sleeps (snd (Analise.salvar_csv data hora taxa arquivo w)) = sleeps w.
Proof.
  rewrite salvar_csv_run. cbv zeta. destruct (disk (n_open w)); cbn; auto.
Qed.

Lemma time_sleep_n_get secs (w : world) :
  n_get (snd (time_sleep secs w)) = n_get w.
Proof. unfold time_sleep. destruct (secs <? 0)%Z; reflexivity. Qed.

(** One pass through the loop body always hands control back to the loop,
    after exactly one request. *)
Lemma coleta_returns n_coletas intervalo i (w : world) :
  fst (Analise.coleta n_coletas intervalo i w) = Ret tt /\
  n_get (snd (Analise.coleta n_coletas intervalo i w)) = S (n_get w).
Proof.
  unfold Analise.coleta, try_except, bind, print.
  destruct (analise_extrair_frame w) as (Hget & _ & _).
  destruct (Analise.extrair_taxa_cdi w) as [[[[data hora] taxa] | e] w1];
    cbn [snd] in Hget; [| cbn; auto].
  destruct (salvar_csv_frame data hora taxa Analise.arquivo_padrao w1) as (Hget1 & _).
  destruct (Analise.salvar_csv data hora taxa Analise.arquivo_padrao w1) as [[[] | e] w2];
    cbn [snd] in Hget1; [| cbn; split; [reflexivity | congruence]].
  destruct (Z.of_nat i <? n_coletas - 1)%Z.
  - match goal with
    | |- context [time_sleep intervalo ?w0] =>
        pose proof (time_sleep_n_get intervalo w0) as Hs;
        destruct (time_sleep intervalo w0) as [[[] | e] w3]
    end; cbn in *; split; [reflexivity | congruence | reflexivity | congruence].
  - cbn. split; [reflexivity | congruence].
Qed.

(** When the sampler raises, the attempt prints the error under its
    1-based index and does not sleep. *)
Lemma coleta_sampler_raises n_coletas intervalo i (w : world) e :
  fst (Analise.extrair_taxa_cdi w) = Raise e ->
  stdout (snd (Analise.coleta n_coletas intervalo i w))
    = (stdout (snd (Analise.extrair_taxa_cdi w))
       ++ ["Erro na coleta " +:+ str_nat (i + 1) +:+ ": " +:+ exn_str e])%list /\
  sleeps (snd (Analise.coleta n_coletas intervalo i w)) = sleeps w.
Proof.
  intros Hraise.
  unfold Analise.coleta, try_except, bind, print.
  destruct (analise_extrair_frame w) as (_ & Hsl & _).
  destruct (Analise.extrair_taxa_cdi w) as [[a | e'] w1]; [discriminate |].
  cbn in Hraise, Hsl |- *. injection Hraise as ->. auto.
Qed.

(** The same when the sampler gives an observation and the append raises. *)
Lemma coleta_append_raises n_coletas intervalo i (w : world) data hora taxa e :
  fst (Analise.extrair_taxa_cdi w) = Ret (data, hora, taxa) ->
  fst (Analise.salvar_csv data hora taxa Analise.arquivo_padrao
         (snd (Analise.extrair_taxa_cdi w))) = Raise e ->
  stdout (snd (Analise.coleta n_coletas intervalo i w))
    = (stdout (snd (Analise.salvar_csv data hora taxa Analise.arquivo_padrao
                      (snd (Analise.extrair_taxa_cdi w))))
       ++ ["Erro na coleta " +:+ str_nat (i + 1) +:+ ": " +:+ exn_str e])%list /\
  sleeps (snd (Analise.coleta n_coletas intervalo i w)) = sleeps w.
Proof.
  intros Hret Hraise.
  unfold Analise.coleta, try_except, bind, print.
  destruct (analise_extrair_frame w) as (_ & Hsl & _).
  destruct (Analise.extrair_taxa_cdi w) as [[a | e'] w1]; [| discriminate].
  cbn [fst snd] in Hret, Hraise, Hsl |- *. injection Hret as ->.
  destruct (salvar_csv_frame data hora taxa Analise.arquivo_padrao w1) as (_ & Hsl1).
  destruct (Analise.salvar_csv data hora taxa Analise.arquivo_padrao w1)
    as [[[] | e'] w2]; [discriminate |].
  cbn in Hraise, Hsl1 |- *. injection Hraise as ->. split; [reflexivity | congruence].
Qed.

(** A loop whose body always returns runs the body on every element, in
    order. *)
Lemma for_each_total {A} (body : A -> M unit) (xs : list A) :
  (forall x w, fst (body x w) = Ret tt) ->
  forall w,
    fst (for_each xs body w) = Ret tt /\
    snd (for_each xs body w) = fold_left (fun wi x => snd (body x wi)) xs w.
Proof.
  intros Hbody. induction xs as [|x xs IH]; intros w.
  - cbn. auto.
  - cbn [for_each fold_left]. unfold bind.
    specialize (Hbody x w). destruct (body x w) as [[[] | e] w1]; [| discriminate].
    cbn [snd]. apply IH.
Qed.

Lemma fold_coleta_n_get n_coletas intervalo (xs : list nat) :
  forall w,
    n_get (fold_left (fun wi i => snd (Analise.coleta n_coletas intervalo i wi)) xs w)
    = (n_get w + length xs)%nat.
Proof.
  induction xs as [|x xs IH]; intros w; cbn [fold_left length].
  - lia.
  - rewrite IH. destruct (coleta_returns n_coletas intervalo x w) as [_ ->]. lia.
Qed.

(** C2: the collector never raises; it makes exactly [n_coletas] attempts,
    one request each, running the loop body for the indices 0, 1, ... in
    order whatever the earlier attempts did; an attempt in which the
    sampler or the append raises prints [Erro na coleta <index>: <error>]
    with its 1-based index and hands control back to the loop. *)
Theorem C2_collector_attempts_all_and_never_raises
    (n_coletas intervalo : Z) (w : world) :
  let r := Analise.coletar_multiplas_vezes n_coletas intervalo w in
  fst r = Ret tt /\
  n_get (snd r) = (n_get w + Z.to_nat n_coletas)%nat /\
  snd r = fold_left (fun wi i => snd (Analise.coleta n_coletas intervalo i wi))
                    (seq 0 (Z.to_nat n_coletas))
                    (snd (print ("Realizando " +:+ str_Z n_coletas
                                 +:+ " coletas com intervalo de "
                                 +:+ str_Z intervalo +:+ "s...") w)) /\
  (forall i wi, fst (Analise.coleta n_coletas intervalo i wi) = Ret tt) /\
  (forall i wi e,
     fst (Analise.extrair_taxa_cdi wi) = Raise e ->
     stdout (snd (Analise.coleta n_coletas intervalo i wi))
       = (stdout (snd (Analise.extrair_taxa_cdi wi))
          ++ ["Erro na coleta " +:+ str_nat (i + 1) +:+ ": " +:+ exn_str e])%list) /\
  (forall i wi data hora taxa e,
     fst (Analise.extrair_taxa_cdi wi) = Ret (data, hora, taxa) ->
     fst (Analise.salvar_csv data hora taxa Analise.arquivo_padrao
            (snd (Analise.extrair_taxa_cdi wi))) = Raise e ->
     stdout (snd (Analise.coleta n_coletas intervalo i wi))
       = (stdout (snd (Analise.salvar_csv data hora taxa Analise.arquivo_padrao
                         (snd (Analise.extrair_taxa_cdi wi))))
          ++ ["Erro na coleta " +:+ str_nat (i + 1) +:+ ": " +:+ exn_str e])%list).
Proof.
  cbv zeta.
  unfold Analise.coletar_multiplas_vezes, bind, print, range.
  match goal with
  | |- context [for_each ?xs ?body ?w0] =>
      destruct (for_each_total body xs
                  (fun i wi => proj1 (coleta_returns n_coletas intervalo i wi)) w0)
        as [Hr Hw]
  end.
  rewrite Hr, Hw.
  split; [reflexivity |].
  split; [rewrite fold_coleta_n_get, length_seq; reflexivity |].
  split; [reflexivity |].
  split; [intros i wi; apply coleta_returns |].
  split.
  - intros i wi e He. apply coleta_sampler_raises. exact He.
  - intros i wi data hora taxa e Hs He.
    apply (coleta_append_raises n_coletas intervalo i wi data hora taxa e Hs He).
Qed.

(** Between two attempts that both succeed the collector sleeps for
    [intervalo]. *)
Lemma coleta_ok_sleeps n_coletas intervalo i (w : world) data hora taxa :
  fst (Analise.extrair_taxa_cdi w) = Ret (data, hora, taxa) ->
  fst (Analise.salvar_csv data hora taxa Analise.arquivo_padrao
         (snd (Analise.extrair_taxa_cdi w))) = Ret tt ->
  (Z.of_nat i < n_coletas - 1)%Z ->
  (0 <= intervalo)%Z ->
  sleeps (snd (Analise.coleta n_coletas intervalo i w)) = (sleeps w ++ [intervalo])%list.
Proof.
  intros Hret Hsave Hi Hint.
  unfold Analise.coleta, try_except, bind, print.
  destruct (analise_extrair_frame w) as (_ & Hsl & _).
  destruct (Analise.extrair_taxa_cdi w) as [[a | e'] w1]; [| discriminate].
  cbn [fst snd] in Hret, Hsave, Hsl |- *. injection Hret as ->.
  destruct (salvar_csv_frame data hora taxa Analise.arquivo_padrao w1) as (_ & Hsl1).
  destruct (Analise.salvar_csv data hora taxa Analise.arquivo_padrao w1)
    as [[[] | e'] w2]; [| discriminate].
  cbn [snd] in Hsl1.
  rewrite (proj2 (Z.ltb_lt _ _) Hi).
  unfold time_sleep. rewrite (proj2 (Z.ltb_ge _ _) Hint).
  cbn. congruence.
Qed.

End Collector.

(** C6, where the code departs from it: two attempts two seconds apart, the
    first of which fails on an empty array.  Both attempts are made and the
    collector never sleeps, although the failed attempt was not the last. *)
Theorem C6_no_sleep_after_failed_attempt :
  let r := Analise.coletar_multiplas_vezes (rt := Decimal.runtime)
             (E := Decimal.hiccup (Decimal.one_point "13.65")
                     (Response 200 (Some (JArr []))) 0)
             2 2 Decimal.fresh in
  fst r = Ret tt /\ n_get (snd r) = 2%nat /\ sleeps (snd r) = [] /\
  stdout (snd r)
  = ["Realizando 2 coletas com intervalo de 2s...";
     "Erro ao processar dados: Nenhum dado CDI encontrado na API";
     "Erro na coleta 1: Nenhum dado CDI encontrado na API";
     "Dados salvos: Data=2024-01-01, Hora=10:00:00, Taxa=13.65%";
     "Coleta 2/2 concluída"].
Proof. vm_compute. repeat split. Qed.

(** Three attempts without pause, the second answered with an empty
    array: the store ends with the header and two record lines. *)
Example three_attempts_one_failure :
  let r := Analise.coletar_multiplas_vezes (rt := Decimal.runtime)
             (E := Decimal.hiccup (Decimal.one_point "13.65")
                     (Response 200 (Some (JArr []))) 1)
             3 0 Decimal.fresh in
  fst r = Ret tt /\
  n_get (snd r) = 3%nat /\
  fs (snd r) !! "taxa-cdi.csv"
  = Some ("data,hora,taxa" +:+ lineterminator
          +:+ "2024-01-01,10:00:00,13.65" +:+ lineterminator
          +:+ "2024-01-01,10:00:00,13.65" +:+ lineterminator) /\
  sleeps (snd r) = [0%Z].
Proof. vm_compute. repeat split. Qed.

(** Two attempts that both succeed: one pause of [intervalo] between them. *)
Example two_attempts_one_pause :
  sleeps (snd (Analise.coletar_multiplas_vezes (rt := Decimal.runtime)
                 (E := Decimal.steady (Decimal.one_point "13.65"))
                 2 2 Decimal.fresh)) = [2%Z].
Proof. vm_compute. reflexivity. Qed.

(** C3, where the code departs from it: the source answers 200 with a body
    that is not JSON, and the sampler of the batch entry point returns a
    synthesized observation (with the connection warning) where the claim
    has it raise a parse error. *)
Theorem C3_undecodable_body_is_replaced :
  Analise.extrair_taxa_cdi (rt := Decimal.runtime)
    (E := Decimal.steady (Response 200 None)) Decimal.fresh
  = (Ret ("2024-01-01", "10:00:00", (125000 # 10000)%Q),
     World ∅ ["Aviso: Não foi possível conectar à API da B3. Usando dados simulados."]
           [] [] 1 0 1 1 0).
Proof. vm_compute. reflexivity. Qed.

Lemma C10_witness :
  fst (Extracao.main (rt := Decimal.runtime)
         (E := Decimal.steady (GetFails NetTimeout)) Decimal.fresh) = Ret 1%Z /\
  fs (snd (Extracao.main (rt := Decimal.runtime)
             (E := Decimal.steady (GetFails NetTimeout)) Decimal.fresh)) = ∅.
Proof.
  destruct (C10_single_shot_never_synthesizes (rt := Decimal.runtime)
              (E := Decimal.steady (GetFails NetTimeout)) Decimal.fresh)
    as (_ & _ & H).
  destruct (H eq_refl) as (_ & _ & _ & Hmain & Hfs & _).
  split; [exact Hmain | exact Hfs].
Defined.


Lemma C2_witness :
  stdout (snd (Analise.coleta (rt := Decimal.runtime)
                 (E := Decimal.steady (Response 200 (Some (JArr []))))
                 3 0 1 Decimal.fresh))
  = ["Erro ao processar dados: Nenhum dado CDI encontrado na API";
     "Erro na coleta 2: Nenhum dado CDI encontrado na API"].
Proof.
  destruct (C2_collector_attempts_all_and_never_raises (rt := Decimal.runtime)
              (E := Decimal.steady (Response 200 (Some (JArr []))))
              3 0 Decimal.fresh) as (_ & _ & _ & _ & H & _).
  exact (H 1%nat Decimal.fresh
           (Exn ValueError "Nenhum dado CDI encontrado na API") eq_refl).
Defined.

Lemma C8_witness :
  let w := set_fs {["taxa-cdi.csv" := "data,hora" +:+ lineterminator
                                      +:+ "2024-01-01,10:00:00" +:+ lineterminator]}
                  Decimal.fresh in
  fst (Visualizacao.ler_dados_csv (rt := Decimal.runtime) "taxa-cdi.csv" w)
    = Raise (Exn ValueError "Arquivo CSV deve conter as colunas 'hora' e 'taxa'") /\
  fst (Visualizacao.main (rt := Decimal.runtime) ["visualizacao.py"; "grafico-cdi"] w)
    = Ret 1%Z /\
  charts (snd (Visualizacao.main (rt := Decimal.runtime)
                 ["visualizacao.py"; "grafico-cdi"] w)) = [].
Proof.
  cbv zeta.
  destruct (C8_reader_rejects_missing_columns (rt := Decimal.runtime)
              (set_fs {["taxa-cdi.csv" := "data,hora" +:+ lineterminator
                                          +:+ "2024-01-01,10:00:00" +:+ lineterminator]}
                      Decimal.fresh)
              "visualizacao.py" "grafico-cdi" []) as [_ H].
  destruct (H ("data,hora" +:+ lineterminator
               +:+ "2024-01-01,10:00:00" +:+ lineterminator)
              eq_refl eq_refl) as (Hr & _ & _ & Hm & Hc).
  split; [exact Hr |]. split; [exact Hm | exact Hc].
Defined.

(** * Further properties of the code *)

(** ** The sampler on responses that arrive *)
Section SamplerMore.
Context {rt : Runtime} {E : env}.

(** When the response has an acceptable status and a JSON array whose last
    element is an object with a [valor] that [float] accepts, both samplers
    return that value with the clock's date and time, after one request and
    one clock reading, printing nothing; the elements before the last play
    no part. *)
Theorem sampler_returns_last_record
    (w : world) (status : nat) (items : list json)
    (members : list (string * json)) (v : json) (taxa : Q) :
  net (n_get w) = Response status (Some (JArr items)) ->
  Seqs.falha_de_rede (net (n_get w)) = false ->
  last items = Some (JObj members) ->
  assoc "valor" members = Some v ->
  (forall w0, float v w0 = (Ret taxa, w0)) ->
  let w' := World (fs w) (stdout w) (sleeps w) (charts w) (S (n_get w)) (n_open w)
                  (S (n_now w)) (n_rand w) (n_read w) in
  let o := (strftime_Ymd (clock (n_now w)), strftime_HMS (clock (n_now w)), taxa) in
  Analise.extrair_taxa_cdi w = (Ret o, w') /\
  Extracao.extrair_taxa_cdi w = (Ret o, w').
Proof.
  intros Hnet Hfalha Hlast Hassoc Hfloat. rewrite Hnet in Hfalha.
  cbn [Seqs.falha_de_rede] in Hfalha. cbv zeta.
  unfold Analise.extrair_taxa_cdi, Extracao.extrair_taxa_cdi, try_except, bind,
    requests_get, raise_for_status, response_json.
  rewrite Hnet. cbn [fst snd]. rewrite Hfalha.
  destruct items as [|x items]; [discriminate |].
  cbn -[last float]. rewrite Hlast. cbn -[float]. rewrite Hassoc. cbn -[float].
  rewrite Hfloat. cbn. auto.
Qed.

(** On every response that arrives with an acceptable status and a
    decodable body, the sampler of [analise.py] and the sampler of
    [extracao.py] do the same thing: same result or same error, same
    printed lines, same state. *)
Theorem samplers_agree_on_decodable_body
    (w : world) (status : nat) (dados : json) :
  net (n_get w) = Response status (Some dados) ->
  Seqs.falha_de_rede (net (n_get w)) = false ->
  Analise.extrair_taxa_cdi w = Extracao.extrair_taxa_cdi w.
Proof.
  intros Hnet Hfalha. rewrite Hnet in Hfalha. cbn [Seqs.falha_de_rede] in Hfalha.
  unfold Analise.extrair_taxa_cdi, Extracao.extrair_taxa_cdi, try_except, bind,
    requests_get, raise_for_status, response_json.
  rewrite Hnet. cbn [fst snd]. rewrite Hfalha. clear Hfalha.
  unfold len, getitem_last, getitem, float, datetime_now, ret, raise, print, bind.
  crunch; try reflexivity; cbn in *; discriminate.
Qed.

(** A [valor] of a kind [float] refuses with [TypeError] (null, a list, an
    object) makes both samplers raise that error without printing: no
    [except] clause of the sampler matches it. *)
Theorem sampler_type_error_is_not_logged
    (w : world) (status : nat) (items : list json)
    (members : list (string * json)) (v : json) (e : exn) :
  net (n_get w) = Response status (Some (JArr items)) ->
  Seqs.falha_de_rede (net (n_get w)) = false ->
  last items = Some (JObj members) ->
  assoc "valor" members = Some v ->
  (forall w0, float v w0 = (Raise e, w0)) ->
  exn_cls e = TypeError ->
  let w' := World (fs w) (stdout w) (sleeps w) (charts w) (S (n_get w)) (n_open w)
                  (n_now w) (n_rand w) (n_read w) in
  Analise.extrair_taxa_cdi w = (Raise e, w') /\
  Extracao.extrair_taxa_cdi w = (Raise e, w').
Proof.
  intros Hnet Hfalha Hlast Hassoc Hfloat Hcls. rewrite Hnet in Hfalha.
  cbn [Seqs.falha_de_rede] in Hfalha. cbv zeta.
  unfold Analise.extrair_taxa_cdi, Extracao.extrair_taxa_cdi, try_except, bind,
    requests_get, raise_for_status, response_json.
  rewrite Hnet. cbn [fst snd]. rewrite Hfalha.
  destruct items as [|x items]; [discriminate |].
  cbn -[last float]. rewrite Hlast. cbn -[float]. rewrite Hassoc. cbn -[float].
  rewrite Hfloat.
  unfold is_RequestException, is_JSONDecodeError, is_KeyError, is_ValueError.
  rewrite Hcls. cbn. auto.
Qed.

End SamplerMore.

Lemma sampler_returns_last_record_witness :
  fst (Analise.extrair_taxa_cdi (rt := Decimal.runtime)
         (E := Decimal.steady
                 (Response 200
                    (Some (JArr [JObj [("valor", JStr "1.5")];
                                 JObj [("data", JStr "02/01/2024");
                                       ("valor", JStr "13.65")]]))))
         Decimal.fresh)
  = Ret ("2024-01-01", "10:00:00", 13.65%Q).
Proof.
  apply (f_equal fst
           (proj1 (sampler_returns_last_record (rt := Decimal.runtime)
              (E := Decimal.steady
                      (Response 200
                         (Some (JArr [JObj [("valor", JStr "1.5")];
                                      JObj [("data", JStr "02/01/2024");
                                            ("valor", JStr "13.65")]]))))
              Decimal.fresh 200 _ _ (JStr "13.65") 13.65%Q
              eq_refl eq_refl eq_refl eq_refl (fun _ => eq_refl)))).
Defined.

Lemma samplers_agree_on_decodable_body_witness :
  Analise.extrair_taxa_cdi (rt := Decimal.runtime)
    (E := Decimal.steady (Response 200 (Some (JObj [("valor", JArr [])]))))
    Decimal.fresh
  = Extracao.extrair_taxa_cdi (rt := Decimal.runtime)
      (E := Decimal.steady (Response 200 (Some (JObj [("valor", JArr [])]))))
      Decimal.fresh.
Proof.
  apply (samplers_agree_on_decodable_body (rt := Decimal.runtime)
           (E := Decimal.steady (Response 200 (Some (JObj [("valor", JArr [])]))))
           Decimal.fresh 200 (JObj [("valor", JArr [])])); reflexivity.
Defined.

Lemma sampler_type_error_is_not_logged_witness :
  stdout (snd (Analise.extrair_taxa_cdi (rt := Decimal.runtime)
                 (E := Decimal.steady
                         (Response 200 (Some (JArr [JObj [("valor", JNull)]]))))
                 Decimal.fresh)) = [].
Proof.
  apply (f_equal (fun r => stdout (snd r))
           (proj1 (sampler_type_error_is_not_logged (rt := Decimal.runtime)
              (E := Decimal.steady
                      (Response 200 (Some (JArr [JObj [("valor", JNull)]]))))
              Decimal.fresh 200 _ _ JNull
              (Exn TypeError "float() argument must be a string or a real number")
              eq_refl eq_refl eq_refl eq_refl (fun _ => eq_refl) eq_refl))).
Defined.

(** ** Synthetic observations and the log *)
Section Announced.
Context {rt : Runtime} {E : env}.



End Announced.


(** ** More on the append store *)
Section StoreMore.
Context {rt : Runtime} {E : env}.

(** On the default path the two copies of [salvar_csv] have the same
    outcome and the same effect on the files; they differ only in the line
    printed on success. *)
Theorem salvar_csv_copies_agree (data hora : string) (taxa : Q) (w : world) :
  let a := Analise.salvar_csv data hora taxa "taxa-cdi.csv" w in
  let b := Extracao.salvar_csv data hora taxa w in
  fst a = fst b /\
  fs (snd a) = fs (snd b) /\
  n_open (snd a) = n_open (snd b) /\
  (fst a <> Ret tt -> snd a = snd b).
Proof.
  cbv zeta. rewrite salvar_csv_run, salvar_csv_extracao_run. cbv zeta.
  destruct (disk (n_open w)); cbn [fst snd fs n_open]; repeat split; congruence.
Qed.

Lemma substring_0_0 (s : string) : substring 0 0 s = "".
Proof. destruct s; reflexivity. Qed.

(** A first call on an absent path that fails decides the fate of the
    header.  When [open] failed the path is still absent, and the next call
    that works writes header and record.  When the text failed to reach
    the file, the file now exists with whatever part arrived, so the next
    call writes its record with no header: if nothing arrived, the file is
    left without any header line. *)
Theorem header_after_failed_first_call
    (o1 o2 : Seqs.observacao) (arquivo : string) (w : world) (err : os_error) :
  fs w !! arquivo = None ->
  disk (S (n_open w)) = IoOk ->
  let call (o : Seqs.observacao) :=
    let '(data, hora, taxa) := o in Analise.salvar_csv data hora taxa arquivo in
  (disk (n_open w) = IoOpenFails err ->
   fs (snd (call o2 (snd (call o1 w)))) !! arquivo
     = Some (Seqs.cabecalho +:+ Seqs.linha o2)) /\
  (forall written, disk (n_open w) = IoFlushFails written err ->
   fs (snd (call o2 (snd (call o1 w)))) !! arquivo
     = Some (substring 0 written (Seqs.cabecalho +:+ Seqs.linha o1) +:+ Seqs.linha o2)) /\
  (disk (n_open w) = IoFlushFails 0 err ->
   fs (snd (call o2 (snd (call o1 w)))) !! arquivo = Some (Seqs.linha o2)).
Proof.
  intros Hnone Hnext. cbv zeta.
  destruct o1 as [[d1 h1] t1], o2 as [[d2 h2] t2].
  assert (Hflush : forall written, disk (n_open w) = IoFlushFails written err ->
            fs (snd (Analise.salvar_csv d2 h2 t2 arquivo
                       (snd (Analise.salvar_csv d1 h1 t1 arquivo w)))) !! arquivo
            = Some (substring 0 written (Seqs.cabecalho +:+ Seqs.linha (d1, h1, t1))
                    +:+ Seqs.linha (d2, h2, t2))).
  { intros written Hd.
    rewrite (salvar_csv_run d1 h1 t1). cbv zeta. rewrite Hd. cbn [snd].
    rewrite salvar_csv_run. cbv zeta. cbn [n_open fs]. rewrite Hnext. cbn [snd fs].
    rewrite lookup_insert_eq, (existe_false _ _ Hnone).
    rewrite (existe_true _ arquivo _ (lookup_insert_eq _ _ _)).
    unfold content. rewrite lookup_insert_eq, Hnone. reflexivity. }
  split; [| split].
  - intros Hd.
    rewrite (salvar_csv_run d1 h1 t1). cbv zeta. rewrite Hd. cbn [snd].
    rewrite salvar_csv_run. cbv zeta. cbn [n_open fs]. rewrite Hnext. cbn [snd fs].
    rewrite lookup_insert_eq, (existe_false _ _ Hnone).
    unfold content. rewrite Hnone. reflexivity.
  - exact Hflush.
  - intros Hd. rewrite (Hflush 0%nat Hd), substring_0_0. reflexivity.
Qed.

(** [main] of [extracao.py] never raises and answers 0 or 1.  It answers 0
    exactly when the sampler gave an observation and the disk raised no
    fault, and then the store holds what it held before followed by the
    header (if the path was absent) and that observation's record.  When
    the sampler raises, the store is not opened. *)
Theorem extracao_main_outcome (w : world) :
  let w0 := snd (print "Iniciando extração da taxa CDI..." w) in
  let m := Extracao.main w in
  (fst m = Ret 0%Z \/ fst m = Ret 1%Z) /\
  (fst m = Ret 0%Z <->
   (exists o, fst (Extracao.extrair_taxa_cdi w0) = Ret o) /\ disk (n_open w) = IoOk) /\
  (forall o, fst (Extracao.extrair_taxa_cdi w0) = Ret o -> disk (n_open w) = IoOk ->
     fs (snd m) = <["taxa-cdi.csv" :=
                     content (fs w) "taxa-cdi.csv"
                     +:+ Seqs.texto (bool_decide (is_Some (fs w !! "taxa-cdi.csv"))) o]>
                  (fs w)) /\
  (forall e, fst (Extracao.extrair_taxa_cdi w0) = Raise e ->
     fs (snd m) = fs w /\ n_open (snd m) = n_open w /\
     exists out, stdout (snd m) = (out ++ ["Erro durante a execução: " +:+ exn_str e])%list).
Proof.
  cbv zeta. unfold Extracao.main, try_except, bind.
  cbn [print snd fst].
  set (w0 := World (fs w) (stdout w ++ ["Iniciando extração da taxa CDI..."])
                   (sleeps w) (charts w) (n_get w) (n_open w) (n_now w) (n_rand w)
                   (n_read w)).
  change (snd (print "Iniciando extração da taxa CDI..." w)) with w0.
  change (print "Iniciando extração da taxa CDI..." w) with (@Ret unit tt, w0).
  cbn beta iota.
  destruct (extracao_extrair_frame w0) as (_ & Hfs & Hopen).
  destruct (Extracao.extrair_taxa_cdi w0) as [[[[data hora] taxa] | e] w1].
  - cbn [fst snd] in *. rewrite salvar_csv_extracao_run. cbv zeta.
    rewrite Hfs, Hopen. cbn [fs n_open w0].
    destruct (disk (n_open w)) eqn:Hd; cbn.
    + split; [auto |]. split; [split; eauto |].
      split; [intros o [= <-] _; reflexivity |]. intros e [=].
    + split; [auto |]. split; [split; [discriminate | intros [_ [=]]] |].
      split; [intros o _ [=] | intros e [=]].
    + split; [auto |]. split; [split; [discriminate | intros [_ [=]]] |].
      split; [intros o _ [=] | intros e [=]].
  - cbn [fst snd] in *. cbn.
    split; [auto |]. split; [split; [discriminate | intros [[o [=]] _]] |].
    split; [intros o [=] |].
    intros e' [= <-]. rewrite Hfs, Hopen. cbn. eauto.
Qed.

End StoreMore.

Lemma salvar_csv_copies_agree_witness :
  snd (Analise.salvar_csv (rt := Decimal.runtime)
         (E := Decimal.faulty_disk (Decimal.one_point "1") 0 (IoFlushFails 4 ENOSPC))
         "2024-01-01" "10:00:00" 13.25 "taxa-cdi.csv" Decimal.fresh)
  = snd (Extracao.salvar_csv (rt := Decimal.runtime)
           (E := Decimal.faulty_disk (Decimal.one_point "1") 0 (IoFlushFails 4 ENOSPC))
           "2024-01-01" "10:00:00" 13.25 Decimal.fresh).
Proof.
  apply (salvar_csv_copies_agree (rt := Decimal.runtime)
           (E := Decimal.faulty_disk (Decimal.one_point "1") 0 (IoFlushFails 4 ENOSPC))
           "2024-01-01" "10:00:00" 13.25 Decimal.fresh).
  discriminate.
Defined.

Lemma header_after_failed_first_call_witness :
  fs (snd (Analise.salvar_csv (rt := Decimal.runtime)
             (E := Decimal.faulty_disk (Decimal.one_point "1") 0 (IoFlushFails 4 ENOSPC))
             "2024-01-02" "11:00:00" 13.5 "taxa-cdi.csv"
             (snd (Analise.salvar_csv (rt := Decimal.runtime)
                     (E := Decimal.faulty_disk (Decimal.one_point "1") 0
                             (IoFlushFails 4 ENOSPC))
                     "2024-01-01" "10:00:00" 13.25 "taxa-cdi.csv" Decimal.fresh))))
    !! "taxa-cdi.csv"
  = Some ("data2024-01-02,11:00:00,13.5" +:+ lineterminator).
Proof.
  apply (proj1 (proj2
           (header_after_failed_first_call (rt := Decimal.runtime)
              (E := Decimal.faulty_disk (Decimal.one_point "1") 0 (IoFlushFails 4 ENOSPC))
              ("2024-01-01", "10:00:00", 13.25%Q) ("2024-01-02", "11:00:00", 13.5%Q)
              "taxa-cdi.csv" Decimal.fresh ENOSPC eq_refl eq_refl)) 4%nat eq_refl).
Defined.

Lemma extracao_main_outcome_witness :
  fs (snd (Extracao.main (rt := Decimal.runtime)
             (E := Decimal.steady (Decimal.one_point "13.65")) Decimal.fresh))
  = {["taxa-cdi.csv" := "data,hora,taxa" +:+ lineterminator
                        +:+ "2024-01-01,10:00:00,13.65" +:+ lineterminator]}.
Proof.
  destruct (extracao_main_outcome (rt := Decimal.runtime)
              (E := Decimal.steady (Decimal.one_point "13.65")) Decimal.fresh)
    as (_ & _ & H & _).
  exact (H ("2024-01-01", "10:00:00", 13.65%Q) eq_refl eq_refl).
Defined.

(** ** The reader and the chart *)
Section ReaderMore.
Context {rt : Runtime}.

Lemma ler_dados_csv_spec (arquivo : string) (w : world) (df : DataFrame) :
  let r := Visualizacao.ler_dados_csv arquivo w in
  (fst r = Ret df <->
   exists c, fs w !! arquivo = Some c /\ read_csv c = Ret df /\
             in_columns "hora" df = true /\ in_columns "taxa" df = true) /\
  (fst r = Ret df -> stdout (snd r) = stdout w /\ n_read (snd r) = S (n_read w)) /\
  fs (snd r) = fs w /\
  Analise.ler_dados_csv arquivo w = r.
Proof.
  cbv zeta. split; [| split; [| split; [| reflexivity]]].
  - destruct (fs w !! arquivo) as [c|] eqn:Hc.
    + destruct (Seqs.tem_colunas c) eqn:Hcols.
      * unfold Visualizacao.ler_dados_csv, try_except, bind, path_exists, pd_read_csv.
        rewrite (existe_true _ _ _ Hc). cbn [negb fs].
        rewrite (content_lookup _ _ _ Hc).
        unfold Seqs.tem_colunas in Hcols.
        destruct (read_csv c) as [df' | e] eqn:Hdf; [| discriminate].
        apply andb_prop in Hcols as [Hh Ht]. rewrite Hh, Ht. cbn.
        split.
        -- intros [= <-]. exists c. repeat split; assumption.
        -- intros (c' & [= <-] & Hdf' & _). congruence.
      * rewrite (ler_dados_csv_sem_colunas _ w c Hc Hcols). cbn [fst].
        split; [discriminate |].
        intros (c' & [= <-] & Hdf & Hh & Ht).
        unfold Seqs.tem_colunas in Hcols. rewrite Hdf, Hh, Ht in Hcols. discriminate.
    + rewrite (ler_dados_csv_ausente _ w Hc). cbn [fst].
      split; [discriminate | intros (c' & [=] & _)].
  - unfold Visualizacao.ler_dados_csv, try_except, bind, path_exists, pd_read_csv.
    destruct (bool_decide (is_Some (fs w !! arquivo))); cbn [negb fs]; [| discriminate].
    destruct (read_csv (content (fs w) arquivo)) as [df' | e]; [| discriminate].
    destruct (in_columns "hora" df'), (in_columns "taxa" df'); cbn;
      try discriminate; auto.
  - unfold Visualizacao.ler_dados_csv, try_except, bind, path_exists, pd_read_csv.
    destruct (bool_decide (is_Some (fs w !! arquivo))); cbn [negb fs]; [| reflexivity].
    destruct (read_csv (content (fs w) arquivo)) as [df' | e]; [| reflexivity].
    destruct (in_columns "hora" df'), (in_columns "taxa" df'); reflexivity.
Qed.

(** [ler_dados_csv] returns a frame exactly when the file exists and
    [read_csv] gives a frame with both [hora] and [taxa]; it then returns
    that frame unchanged, prints nothing, and has parsed the file once.  It
    never changes a file, whatever happens. *)
Theorem ler_dados_csv_returns_iff (arquivo : string) (w : world) (df : DataFrame) :
  let r := Visualizacao.ler_dados_csv arquivo w in
  (fst r = Ret df <->
   exists c, fs w !! arquivo = Some c /\ read_csv c = Ret df /\
             in_columns "hora" df = true /\ in_columns "taxa" df = true) /\
  (fst r = Ret df -> stdout (snd r) = stdout w /\ n_read (snd r) = S (n_read w)) /\
  fs (snd r) = fs w /\
  Analise.ler_dados_csv arquivo w = r.
Proof. exact (ler_dados_csv_spec arquivo w df). Qed.

Lemma gerar_grafico_spec (df : DataFrame) (nome : string) (w : world) :
  let r := Visualizacao.gerar_grafico df nome w in
  fs (snd r) = fs w /\
  Analise.gerar_grafico df nome w = r /\
  (in_columns "hora" df = true -> in_columns "taxa" df = true ->
   fst r = Ret tt /\
   charts (snd r) = (charts w ++ [nome +:+ ".png"])%list /\
   stdout (snd r) = (stdout w ++ ["Gráfico salvo como: " +:+ nome +:+ ".png"])%list) /\
  (in_columns "hora" df = false ->
   fst r = Raise (Exn KeyError "'hora'") /\ charts (snd r) = charts w /\
   stdout (snd r) = (stdout w ++ ["Erro ao gerar gráfico: 'hora'"])%list) /\
  (in_columns "hora" df = true -> in_columns "taxa" df = false ->
   fst r = Raise (Exn KeyError "'taxa'") /\ charts (snd r) = charts w /\
   stdout (snd r) = (stdout w ++ ["Erro ao gerar gráfico: 'taxa'"])%list).
Proof.
  cbv zeta.
  unfold Analise.gerar_grafico, Visualizacao.gerar_grafico, try_except, bind, df_getitem.
  destruct (in_columns "hora" df), (in_columns "taxa" df); cbn;
    repeat split; intros; try discriminate; reflexivity.
Qed.



End ReaderMore.

Lemma ler_dados_csv_returns_iff_witness :
  let w := set_fs {["taxa-cdi.csv" := "data,hora,taxa" +:+ lineterminator
                                      +:+ "2024-01-01,10:00:00,13.25" +:+ lineterminator]}
                  Decimal.fresh in
  fst (Visualizacao.ler_dados_csv (rt := Decimal.runtime) "taxa-cdi.csv" w)
  = Ret (Frame ["data"; "hora"; "taxa"] [["2024-01-01"; "10:00:00"; "13.25"]]).
Proof.
  cbv zeta.
  apply (ler_dados_csv_returns_iff (rt := Decimal.runtime) "taxa-cdi.csv"
           (set_fs {["taxa-cdi.csv" := "data,hora,taxa" +:+ lineterminator
                                       +:+ "2024-01-01,10:00:00,13.25" +:+ lineterminator]}
                   Decimal.fresh)).
  eexists. split; [reflexivity |]. split; [reflexivity |]. split; reflexivity.
Defined.



(** ** More on the batch collector *)
Section CollectorMore.
Context {rt : Runtime} {E : env}.

(** A count of zero or less makes no attempt: the collector prints its
    opening line and returns. *)
Theorem collector_without_attempts (n_coletas intervalo : Z) (w : world) :
  (n_coletas <= 0)%Z ->
  Analise.coletar_multiplas_vezes n_coletas intervalo w
  = print ("Realizando " +:+ str_Z n_coletas +:+ " coletas com intervalo de "
           +:+ str_Z intervalo +:+ "s...") w.
Proof.
  intros Hn. unfold Analise.coletar_multiplas_vezes, bind, range.
  replace (Z.to_nat n_coletas) with 0%nat by lia.
  reflexivity.
Qed.

(** With a negative interval [time.sleep] raises inside the [try]: an
    attempt that is not the last and whose observation was saved prints its
    success line and then an error line for the same attempt, without
    sleeping; the saved record stays. *)
Theorem negative_interval_reports_saved_attempt
    (n_coletas intervalo : Z) (i : nat) (w : world) (data hora : string) (taxa : Q) :
  fst (Analise.extrair_taxa_cdi w) = Ret (data, hora, taxa) ->
  fst (Analise.salvar_csv data hora taxa Analise.arquivo_padrao
         (snd (Analise.extrair_taxa_cdi w))) = Ret tt ->
  (Z.of_nat i < n_coletas - 1)%Z ->
  (intervalo < 0)%Z ->
  let w2 := snd (Analise.salvar_csv data hora taxa Analise.arquivo_padrao
                   (snd (Analise.extrair_taxa_cdi w))) in
  let r := Analise.coleta n_coletas intervalo i w in
  fst r = Ret tt /\
  fs (snd r) = fs w2 /\
  sleeps (snd r) = sleeps w /\
  stdout (snd r)
  = (stdout w2
     ++ ["Coleta " +:+ str_nat (i + 1) +:+ "/" +:+ str_Z n_coletas +:+ " concluída";
         "Erro na coleta " +:+ str_nat (i + 1)
         +:+ ": sleep length must be non-negative"])%list.
Proof.
  intros Hret Hsave Hi Hint. cbv zeta.
  unfold Analise.coleta, try_except, bind, print.
  destruct (analise_extrair_frame w) as (_ & Hsl & _).
  destruct (Analise.extrair_taxa_cdi w) as [[a | e'] w1]; [| discriminate].
  cbn [fst snd] in Hret, Hsave, Hsl |- *. injection Hret as ->.
  destruct (salvar_csv_frame data hora taxa Analise.arquivo_padrao w1) as (_ & Hsl1).
  destruct (Analise.salvar_csv data hora taxa Analise.arquivo_padrao w1)
    as [[[] | e'] w2]; [| discriminate].
  cbn [snd] in Hsl1 |- *.
  rewrite (proj2 (Z.ltb_lt _ _) Hi).
  unfold time_sleep. rewrite (proj2 (Z.ltb_lt _ _) Hint).
  cbn. rewrite <- app_assoc. cbn. repeat split; congruence.
Qed.

(** *** A batch in which every response carries no data *)

Lemma analise_extrair_sem_dados_run (w : world) :
  Seqs.sem_dados (net (n_get w)) = true ->
  Analise.extrair_taxa_cdi w =
  (Raise (Exn ValueError "Nenhum dado CDI encontrado na API"),
   World (fs w)
         (stdout w ++ ["Erro ao processar dados: Nenhum dado CDI encontrado na API"])
         (sleeps w) (charts w) (S (n_get w)) (n_open w) (n_now w) (n_rand w) (n_read w)).
Proof.
  intros Hsem.
  unfold Analise.extrair_taxa_cdi, try_except, bind, requests_get, raise_for_status,
    response_json.
  destruct (net (n_get w)) as [err | status [dados|]]; try discriminate.
  cbn [Seqs.sem_dados] in Hsem. apply andb_prop in Hsem as [Hst Htr].
  apply negb_true_iff in Hst, Htr.
  cbn [fst snd]. rewrite Hst. cbn. rewrite Htr. reflexivity.
Qed.

Lemma coleta_sem_dados n_coletas intervalo i (w : world) :
  Seqs.sem_dados (net (n_get w)) = true ->
  Analise.coleta n_coletas intervalo i w =
  (Ret tt,
   World (fs w)
         ((stdout w ++ ["Erro ao processar dados: Nenhum dado CDI encontrado na API"])
          ++ ["Erro na coleta " +:+ str_nat (i + 1)
              +:+ ": Nenhum dado CDI encontrado na API"])
         (sleeps w) (charts w) (S (n_get w)) (n_open w) (n_now w) (n_rand w) (n_read w)).
Proof.
  intros Hsem. unfold Analise.coleta, try_except, bind.
  rewrite (analise_extrair_sem_dados_run w Hsem). reflexivity.
Qed.

Lemma fold_coleta_sem_dados n_coletas intervalo (xs : list nat) :
  (forall k, Seqs.sem_dados (net k) = true) ->
  forall w,
    let w' := fold_left (fun wi i => snd (Analise.coleta n_coletas intervalo i wi)) xs w in
    fs w' = fs w /\ sleeps w' = sleeps w /\ charts w' = charts w /\
    n_open w' = n_open w /\ n_rand w' = n_rand w /\ n_read w' = n_read w /\
    length (stdout w') = (length (stdout w) + 2 * length xs)%nat.
Proof.
  intros Hsem. induction xs as [|x xs IH]; intros w; cbv zeta; cbn [fold_left].
  - cbn. repeat split; lia.
  - rewrite (coleta_sem_dados n_coletas intervalo x w (Hsem _)). cbn [snd].
    specialize (IH (World (fs w)
         ((stdout w ++ ["Erro ao processar dados: Nenhum dado CDI encontrado na API"])
          ++ ["Erro na coleta " +:+ str_nat (x + 1)
              +:+ ": Nenhum dado CDI encontrado na API"])
         (sleeps w) (charts w) (S (n_get w)) (n_open w) (n_now w) (n_rand w) (n_read w))).
    cbv zeta in IH. cbn [fs sleeps charts n_open n_rand n_read stdout] in IH.
    destruct IH as (H1 & H2 & H3 & H4 & H5 & H6 & H7).
    repeat split; try assumption.
    rewrite H7, !length_app. cbn. lia.
Qed.

Lemma coletar_sem_dados_run (n_coletas intervalo : Z) (w : world) :
  (forall k, Seqs.sem_dados (net k) = true) ->
  let r := Analise.coletar_multiplas_vezes n_coletas intervalo w in
  fst r = Ret tt /\
  n_get (snd r) = (n_get w + Z.to_nat n_coletas)%nat /\
  fs (snd r) = fs w /\ n_open (snd r) = n_open w /\
  sleeps (snd r) = sleeps w /\ n_rand (snd r) = n_rand w /\
  charts (snd r) = charts w /\ n_read (snd r) = n_read w /\
  length (stdout (snd r)) = (length (stdout w) + 1 + 2 * Z.to_nat n_coletas)%nat.
Proof.
  intros Hsem. cbv zeta.
  unfold Analise.coletar_multiplas_vezes, bind, print, range.
  match goal with
  | |- context [for_each ?xs ?body ?w0] =>
      destruct (for_each_total body xs
                  (fun i wi => proj1 (coleta_returns n_coletas intervalo i wi)) w0)
        as [Hr Hw];
      pose proof (fold_coleta_sem_dados n_coletas intervalo xs Hsem w0) as Hf
  end.
  cbv zeta in Hf. rewrite Hr, Hw.
  destruct Hf as (H1 & H2 & H3 & H4 & H5 & H6 & H7).
  cbn [fs sleeps charts n_open n_rand n_read stdout] in *.
  rewrite fold_coleta_n_get, length_seq.
  repeat split; try assumption.
  rewrite H7, length_app, length_seq. cbn. lia.
Qed.

(** When every response arrives with an acceptable status and a body
    without data, the collector still makes all its attempts and returns,
    and it has changed no file, opened the store never, slept never and
    drawn no random number; it printed its opening line and two lines per
    attempt. *)
Theorem collector_with_empty_responses (n_coletas intervalo : Z) (w : world) :
  (forall k, Seqs.sem_dados (net k) = true) ->
  let r := Analise.coletar_multiplas_vezes n_coletas intervalo w in
  fst r = Ret tt /\
  n_get (snd r) = (n_get w + Z.to_nat n_coletas)%nat /\
  fs (snd r) = fs w /\ n_open (snd r) = n_open w /\
  sleeps (snd r) = sleeps w /\ n_rand (snd r) = n_rand w /\
  charts (snd r) = charts w /\ n_read (snd r) = n_read w /\
  length (stdout (snd r)) = (length (stdout w) + 1 + 2 * Z.to_nat n_coletas)%nat.
Proof. exact (coletar_sem_dados_run n_coletas intervalo w). Qed.

(** [main] of [analise.py] on a store that does not exist, when every
    response carries no data: the ten attempts are made, nothing is stored,
    the reader finds no file, and [main] answers 1 without writing an image. *)
Theorem analise_main_without_data (w : world) :
  (forall k, Seqs.sem_dados (net k) = true) ->
  fs w !! "taxa-cdi.csv" = None ->
  let m := Analise.main w in
  fst m = Ret 1%Z /\
  n_get (snd m) = (n_get w + 10)%nat /\
  fs (snd m) = fs w /\
  charts (snd m) = charts w /\
  exists out,
    stdout (snd m)
    = (out ++ ["Erro ao ler arquivo CSV: Arquivo taxa-cdi.csv não encontrado";
               "Erro durante a execução: Arquivo taxa-cdi.csv não encontrado"])%list.
Proof.
  intros Hsem Hnone. cbv zeta.
  unfold Analise.main, try_except, bind.
  cbn [print fst snd fs stdout sleeps charts n_get n_open n_now n_rand n_read].
  match goal with
  | |- context [Analise.coletar_multiplas_vezes 10 2 ?w0] =>
      pose proof (coletar_sem_dados_run 10 2 w0 Hsem) as Hc;
      cbv zeta in Hc;
      destruct (Analise.coletar_multiplas_vezes 10 2 w0) as [[[] | e] w1]
  end;
    destruct Hc as (Hr & Hget & Hfs & _ & _ & _ & Hch & _); [| discriminate].
  cbn [fst snd fs charts n_get] in *.
  unfold Analise.ler_dados_csv, try_except, bind, path_exists.
  cbn [fs fst snd].
  unfold Analise.arquivo_padrao.
  rewrite Hfs, (existe_false _ _ Hnone). cbn.
  rewrite ?Hfs, ?Hch, ?Hget.
  split; [reflexivity |]. split; [cbn; lia |].
  split; [reflexivity |]. split; [reflexivity |].
  eexists. rewrite <- app_assoc. reflexivity.
Qed.

End CollectorMore.

(** ** A batch run without network *)
Section Offline.
Context {rt : Runtime} {E : env}.






End Offline.

Lemma collector_without_attempts_witness :
  stdout (snd (Analise.coletar_multiplas_vezes (rt := Decimal.runtime)
                 (E := Decimal.steady (Decimal.one_point "13.65"))
                 0 2 Decimal.fresh))
  = ["Realizando 0 coletas com intervalo de 2s..."].
Proof.
  rewrite (collector_without_attempts (rt := Decimal.runtime)
             (E := Decimal.steady (Decimal.one_point "13.65")) 0 2 Decimal.fresh);
    [reflexivity | lia].
Defined.

Lemma negative_interval_reports_saved_attempt_witness :
  stdout (snd (Analise.coleta (rt := Decimal.runtime)
                 (E := Decimal.steady (Decimal.one_point "13.65"))
                 2 (-1) 0 Decimal.fresh))
  = ["Dados salvos: Data=2024-01-01, Hora=10:00:00, Taxa=13.65%";
     "Coleta 1/2 concluída";
     "Erro na coleta 1: sleep length must be non-negative"].
Proof.
  apply (negative_interval_reports_saved_attempt (rt := Decimal.runtime)
           (E := Decimal.steady (Decimal.one_point "13.65"))
           2 (-1) 0 Decimal.fresh "2024-01-01" "10:00:00" 13.65%Q);
    [reflexivity | reflexivity | lia | lia].
Defined.

Lemma collector_with_empty_responses_witness :
  fs (snd (Analise.coletar_multiplas_vezes (rt := Decimal.runtime)
             (E := Decimal.steady (Response 200 (Some (JArr []))))
             3 2 Decimal.fresh)) = ∅ /\
  sleeps (snd (Analise.coletar_multiplas_vezes (rt := Decimal.runtime)
                 (E := Decimal.steady (Response 200 (Some (JArr []))))
                 3 2 Decimal.fresh)) = [].
Proof.
  destruct (collector_with_empty_responses (rt := Decimal.runtime)
              (E := Decimal.steady (Response 200 (Some (JArr []))))
              3 2 Decimal.fresh (fun _ => eq_refl))
    as (_ & _ & Hfs & _ & Hsl & _).
  split; [exact Hfs | exact Hsl].
Defined.

Lemma analise_main_without_data_witness :
  fst (Analise.main (rt := Decimal.runtime)
         (E := Decimal.steady (Response 200 (Some (JArr [])))) Decimal.fresh)
  = Ret 1%Z.
Proof.
  apply (analise_main_without_data (rt := Decimal.runtime)
           (E := Decimal.steady (Response 200 (Some (JArr [])))) Decimal.fresh
           (fun _ => eq_refl) eq_refl).
Defined.


(** ** The combined script *)
Section MainMore.
Context {rt : Runtime} {E : env}.

Lemma ler_dados_csv_n_get (arquivo : string) (w : world) :
  n_get (snd (Visualizacao.ler_dados_csv arquivo w)) = n_get w.
Proof.
  unfold Visualizacao.ler_dados_csv, try_except, bind, path_exists, pd_read_csv.
  destruct (bool_decide (is_Some (fs w !! arquivo))); cbn [negb fs]; [| reflexivity].
  destruct (read_csv (content (fs w) arquivo)) as [df' | e]; [| reflexivity].
  destruct (in_columns "hora" df'), (in_columns "taxa" df'); reflexivity.
Qed.

Lemma gerar_grafico_n_get (df : DataFrame) (nome : string) (w : world) :
  n_get (snd (Visualizacao.gerar_grafico df nome w)) = n_get w.
Proof.
  unfold Visualizacao.gerar_grafico, try_except, bind, df_getitem.
  destruct (in_columns "hora" df), (in_columns "taxa" df); reflexivity.
Qed.

Lemma coletar_returns (n_coletas intervalo : Z) (w : world) :
  fst (Analise.coletar_multiplas_vezes n_coletas intervalo w) = Ret tt /\
  n_get (snd (Analise.coletar_multiplas_vezes n_coletas intervalo w))
  = (n_get w + Z.to_nat n_coletas)%nat.
Proof.
  unfold Analise.coletar_multiplas_vezes, bind, print, range.
  match goal with
  | |- context [for_each ?xs ?body ?w0] =>
      destruct (for_each_total body xs
                  (fun i wi => proj1 (coleta_returns n_coletas intervalo i wi)) w0)
        as [Hr Hw]
  end.
  rewrite Hr, Hw. split; [reflexivity |].
  rewrite fold_coleta_n_get, length_seq. reflexivity.
Qed.

(** [main] of [analise.py] never raises and answers 0 or 1, after exactly
    ten requests.  When it answers 0, the last image written is
    [analise-cdi.png] and the store holds a file that parses to a frame with
    the [hora] and [taxa] columns. *)
Theorem analise_main_outcome (w : world) :
  let m := Analise.main w in
  (fst m = Ret 0%Z \/ fst m = Ret 1%Z) /\
  n_get (snd m) = (n_get w + 10)%nat /\
  (fst m = Ret 0%Z ->
   (exists cs, charts (snd m) = (cs ++ ["analise-cdi.png"])%list) /\
   exists c df, fs (snd m) !! "taxa-cdi.csv" = Some c /\ read_csv c = Ret df /\
                in_columns "hora" df = true /\ in_columns "taxa" df = true).
Proof.
  cbv zeta.
  unfold Analise.main, try_except, bind.
  cbn [print fst snd fs stdout sleeps charts n_get n_open n_now n_rand n_read].
  match goal with
  | |- context [Analise.coletar_multiplas_vezes 10 2 ?w0] =>
      destruct (coletar_returns 10 2 w0) as (Hr & Hget);
      destruct (Analise.coletar_multiplas_vezes 10 2 w0) as [[[] | e] w1];
      [| discriminate]
  end.
  cbn [fst snd n_get] in Hget.
  cbn [print fst snd fs stdout sleeps charts n_get n_open n_now n_rand n_read].
  change (Analise.ler_dados_csv Analise.arquivo_padrao)
    with (Visualizacao.ler_dados_csv "taxa-cdi.csv").
  match goal with
  | |- context [Visualizacao.ler_dados_csv "taxa-cdi.csv" ?w2] =>
      pose proof (ler_dados_csv_n_get "taxa-cdi.csv" w2) as Hg2;
      pose proof (fun df => ler_dados_csv_spec "taxa-cdi.csv" w2 df) as Hler;
      destruct (Visualizacao.ler_dados_csv "taxa-cdi.csv" w2) as [[df | e] w3]
  end; cbn [fst snd fs n_get] in *.
  - destruct (Hler df) as (Hiff & _ & Hfs3 & _).
    destruct (proj1 Hiff eq_refl) as (c & Hc & Hdf & Hh & Ht).
    cbn [print fst snd fs stdout sleeps charts n_get n_open n_now n_rand n_read].
    change (Analise.gerar_grafico df "analise-cdi")
      with (Visualizacao.gerar_grafico df "analise-cdi").
    match goal with
    | |- context [Visualizacao.gerar_grafico df "analise-cdi" ?w4] =>
        pose proof (gerar_grafico_n_get df "analise-cdi" w4) as Hg4;
        destruct (gerar_grafico_spec df "analise-cdi" w4) as (Hfs4 & _ & Hok & _);
        destruct (Hok Hh Ht) as (Hr4 & Hch4 & _);
        destruct (Visualizacao.gerar_grafico df "analise-cdi" w4) as [[[] | e] w5];
        [| discriminate]
    end.
    cbn [fst snd fs charts n_get] in *.
    cbn [ret print fst snd fs stdout sleeps charts n_get n_open n_now n_rand n_read].
    split; [left; reflexivity |]. split; [cbn in Hget; lia |].
    intros _. split; [eexists; exact Hch4 |].
    exists c, df. rewrite Hfs4, Hfs3. auto.
  - cbn. split; [right; reflexivity |]. split; [cbn in Hget; lia |]. discriminate.
Qed.


End MainMore.

Lemma analise_main_outcome_witness :
  exists cs,
    charts (snd (Analise.main (rt := Decimal.runtime)
                   (E := Decimal.steady (GetFails NetTimeout)) Decimal.fresh))
    = (cs ++ ["analise-cdi.png"])%list.
Proof.
  apply (analise_main_outcome (rt := Decimal.runtime)
           (E := Decimal.steady (GetFails NetTimeout)) Decimal.fresh).
  vm_compute. reflexivity.
Defined.

